(** * Reaktoro training notebooks: call traces and their properties

    The repository is a collection of Jupyter notebooks.  Each notebook is a
    Python script that drives the external Reaktoro library: it constructs
    library objects, calls their methods, prints, and plots.  The notebooks
    are embedded here as monadic scripts, statement by statement.  Running a
    script yields the sequence of calls it performs; the library itself is
    not part of the repository and is kept abstract: a [library] only answers
    the questions on which the course of a notebook depends (whether a solve
    succeeded, how many elements a library collection has, whether a
    condition on library data holds).

    A run executes the cells of a notebook once, from top to bottom, and is
    taken to complete: no call raises an exception. *)

From stdpp Require Import gmap strings list.
From Stdlib Require Import QArith Qround.

Set Warnings "-register-all".

Open Scope string_scope.
Open Scope Q_scope.
Open Scope list_scope.

(** ** Python values *)

(** The classes of the library objects the notebooks construct, and the
    class of the tables (pandas data frames) they fill. *)
Inductive cls :=
| CDatabase | CPhase | CChemicalSystem | CChemicalState
| CEquilibriumSpecs | CEquilibriumConditions | CEquilibriumSolver
| CEquilibriumResult | CProps | CMaterial | CConstraintEquation
| CDataFrame.

Global Instance cls_eq_dec : EqDecision cls.
Proof. solve_decision. Defined.

(** A value is a literal, a library object (known by its class and an
    identity), or a term recording how the value was obtained: the library
    computes in floating point, so what an accessor returned is named by the
    call that returned it. *)
Inductive val :=
| VNone
| VBool (b : bool)
| VNum (q : Q)
| VStr (s : string)
| VObj (c : cls) (id : nat)
| VRes (recv : val) (name : string) (args : list val)
| VApp (f : string) (args : list val)
| VOp (op : string) (args : list val)
| VItem (coll : val)
| VList (l : list val)
| VKw (key : string) (v : val)
| VLam (name : string).

Coercion VStr : string >-> val.
Coercion VNum : Q >-> val.

(** A constant exported by a library module, such as [AggregateState.Gas]. *)
Definition constant (name : string) : val := VApp name [].

(** Equality of values is decidable. *)
Global Instance val_eq_dec : EqDecision val.
Proof.
  unfold EqDecision, Decision. fix IH 1.
  decide equality;
    try (apply List.list_eq_dec; exact IH);
    try apply String.string_dec; try apply Nat.eq_dec;
    try apply cls_eq_dec; try apply Bool.bool_dec.
  decide equality; [apply Pos.eq_dec | apply Z.eq_dec].
Defined.

(** ** Events *)

(** What a notebook does, one event per call: a constructor call, a method
    call or attribute access on a library value, a call of a free function
    of the library, an operation of Python itself, a print, a call into
    numpy, pandas or bokeh, an import.  A loop over a library collection
    and a branch on library data are kept folded, with the events of their
    body, until the library says how often the body runs. *)
Inductive event :=
| ENew (c : cls) (ctor : string) (args : list val) (ret : val)
| ECall (recv : val) (meth : string) (args : list val) (ret : val)
| EFun (f : string) (args : list val) (ret : val)
| EHost (op : string) (args : list val)
| EPrint (args : list val)
| EExt (pkg : string) (f : string) (args : list val)
| EImport (module : string)
| ELoop (coll : val) (body : list event)
| EIf (cond : val) (body : list event).

(** ** The library, as far as a notebook can observe it *)

(** The iterations of the enclosing loops over library collections, outermost
    first. *)
Definition path := list nat.

Record library := Library {
  (* the flag of the result object with this identity *)
  succeeded : nat → bool;
  (* the number of elements of a library collection; under a loop, it may
     differ from one iteration to the next *)
  size : path → val → nat;
  (* the truth of a condition on library data, likewise *)
  truth : path → val → bool
}.

(** ** Scripts *)

(** A script reads the library's answers, allocates object identities from a
    counter, and logs its events. *)
Definition py (A : Type) : Type := library → nat → A * nat * list event.

Global Instance py_ret : MRet py := λ A a _ n, (a, n, []).
Global Instance py_bind : MBind py := λ A B k m lib n,
  let '(a, n1, t1) := m lib n in
  let '(b, n2, t2) := k a lib n1 in
  (b, n2, t1 ++ t2).

(** A Python variable holds a value; [x ← m; k] binds it. *)
Declare Scope script_scope.
Notation "x ← y ; z" := (@mbind py _ val _ (λ x : val, z) y)
  (at level 20, y at level 100, z at level 200, only parsing) : script_scope.

(** A value used as an expression evaluates to itself. *)
Definition lit (v : val) : py val := mret v.
Coercion lit : val >-> py.

(** Argument lists are written as in Python: each argument is an expression,
    and literals and variables stand for themselves. *)
Declare Scope py_scope.
Delimit Scope py_scope with py.
Notation "[ ]" := (@nil (py val)) : py_scope.
Notation "[ x ]" := (@cons (py val) x (@nil (py val))) : py_scope.
Notation "[ x ; y ; .. ; z ]" :=
  (@cons (py val) x (@cons (py val) y .. (@cons (py val) z (@nil (py val))) ..)) : py_scope.

(** Python evaluates the arguments of a call from left to right. *)
Fixpoint eval_args (args : list (py val)) : py (list val) :=
  match args with
  | [] => mret []
  | a :: args' => v ← a; vs ← eval_args args'; mret (v :: vs)
  end.

Definition emit (e : event) : py unit := λ _ n, (tt, n, [e]).

(** The identity of the next object the library creates. *)
Definition alloc (c : cls) : py val := λ _ n, (VObj c n, S n, []).

(** The library's answer for the result object [id]. *)
Definition ask_succeeded (id : nat) : py val := λ lib n, (VBool (succeeded lib id), n, []).

(** [C(args)]: a constructor call returns a new object. *)
Definition new (c : cls) (ctor : string) (args : list (py val)) : py val :=
  vs ← eval_args args; o ← alloc c;
  emit (ENew c ctor vs o);; mret o.

(** [recv.meth(args)] for an accessor or a mutator. *)
Definition call (recv : py val) (meth : string) (args : list (py val)) : py val :=
  r ← recv; vs ← eval_args args;
  emit (ECall r meth vs (VRes r meth vs));; mret (VRes r meth vs).

(** [recv.meth(args)] for a method that returns a new library object. *)
Definition call_new (c : cls) (recv : py val) (meth : string) (args : list (py val)) : py val :=
  r ← recv; vs ← eval_args args; o ← alloc c;
  emit (ECall r meth vs o);; mret o.

(** [recv.attr], an attribute read. *)
Definition getattr (recv : py val) (attr : string) : py val := call recv attr [].

(** [recv.attr = v]. *)
Definition setattr (recv : py val) (attr : string) (v : py val) : py unit :=
  r ← recv; x ← v; emit (ECall r "__setattr__" [VStr attr; x] VNone).

(** A free function of the library, such as [speciate] or [chain]. *)
Definition fn (f : string) (args : list (py val)) : py val :=
  vs ← eval_args args; emit (EFun f vs (VApp f vs));; mret (VApp f vs).

(** A free function of the library that returns a new library object. *)
Definition fn_new (c : cls) (f : string) (args : list (py val)) : py val :=
  vs ← eval_args args; o ← alloc c;
  emit (EFun f vs o);; mret o.

(** Python's own arithmetic, its [math] module and built-in conversions. *)
Definition host (op : string) (args : list (py val)) : py val :=
  vs ← eval_args args; emit (EHost op vs);; mret (VOp op vs).

(** A list display [[a, b, c]]. *)
Definition list_ (args : list (py val)) : py val :=
  vs ← eval_args args; mret (VList vs).

(** A keyword argument [key=v]. *)
Definition kw (key : string) (v : py val) : py val := x ← v; mret (VKw key x).

Definition print (args : list (py val)) : py unit :=
  vs ← eval_args args; emit (EPrint vs).

(** numpy, pandas and bokeh calls; of a plotting call only the arguments that
    carry data are kept. *)
Definition ext (pkg f : string) (args : list (py val)) : py val :=
  vs ← eval_args args; emit (EExt pkg f vs);; mret (VApp f vs).

Definition import (module : string) : py unit := emit (EImport module).

Arguments new c ctor args%_py.
Arguments call recv meth args%_py.
Arguments call_new c recv meth args%_py.
Arguments fn f args%_py.
Arguments fn_new c f args%_py.
Arguments host op args%_py.
Arguments list_ args%_py.
Arguments print args%_py.
Arguments ext pkg f args%_py.

(** [result.optima.succeeded]: the answer comes from the library. *)
Definition optima_succeeded (result : val) : py val :=
  b ← match result with VObj _ id => ask_succeeded id | _ => lit VNone end;
  emit (ECall result "optima.succeeded" [] b);; mret b.

(** [v[k]], also used for unpacking a pair. *)
Definition index (v : py val) (k : py val) : py val := host "[]" [v; k].

(** The conditional expression [x if b else y]. *)
Definition if_else (x : val) (b : val) (y : val) : val :=
  match b with VBool true => x | _ => y end.

(** [for x in l: body] over a list the notebook itself determines. *)
Fixpoint for_in {A : Type} (l : list A) (body : A → py unit) : py unit :=
  match l with
  | [] => mret tt
  | x :: l' => body x;; for_in l' body
  end.

(** The same, threading a Python variable that the body reassigns. *)
Fixpoint for_acc {A : Type} (l : list A) (acc : val) (body : A → val → py val) : py val :=
  match l with
  | [] => mret acc
  | x :: l' => acc' ← body x acc; for_acc l' acc' body
  end.

(** [for x in coll: body] over a collection returned by the library.  The
    body is run on the current element, which is a name for whichever
    element the iteration is at; how often the body is repeated is the
    library's answer, supplied when the trace is unrolled. *)
Definition fold_loop (coll : val) (body : py unit) : py unit :=
  λ lib n, let '(_, n', t) := body lib n in (tt, n', [ELoop coll t]).

Definition for_each (coll : py val) (body : val → py unit) : py unit :=
  c ← coll; fold_loop c (body (VItem c)).

(** [if cond: body] for a condition on library data.  Whether the body runs
    is the library's answer, supplied when the trace is unrolled. *)
Definition fold_if (cond : val) (body : py unit) : py unit :=
  λ lib n, let '(_, n', t) := body lib n in (tt, n', [EIf cond t]).

Definition when (cond : py val) (body : py unit) : py unit :=
  c ← cond; fold_if c body.

(** ** Traces *)

(** Unrolling asks the library, at each loop, for the number of elements,
    and at each condition, for its truth; each iteration of a loop may get
    different answers for what is nested in it. *)
Fixpoint unroll_event (lib : library) (pt : path) (e : event) : list event :=
  match e with
  | ELoop coll body =>
      flat_map (λ i, flat_map (unroll_event lib (pt ++ [i])) body) (seq 0 (size lib pt coll))
  | EIf cond body => if truth lib pt cond then flat_map (unroll_event lib pt) body else []
  | _ => [e]
  end.

Definition unroll (lib : library) (pt : path) (t : list event) : list event :=
  flat_map (unroll_event lib pt) t.

(** The events of a script with loops over library collections kept folded. *)
Definition script_events (lib : library) (nb : py unit) : list event := (nb lib 0%nat).2.

(** The trace of a notebook run against a library. *)
Definition trace (lib : library) (nb : py unit) : list event :=
  unroll lib [] (script_events lib nb).

(** ** The Reaktoro interface used by the notebooks *)

Definition PhreeqcDatabase := new CDatabase "PhreeqcDatabase".
Definition AqueousPhase := new CPhase "AqueousPhase".
Definition GaseousPhase := new CPhase "GaseousPhase".
Definition MineralPhase := new CPhase "MineralPhase".
Definition MineralPhases := new CPhase "MineralPhases".
Definition SolidPhase := new CPhase "SolidPhase".
Definition IonExchangePhase := new CPhase "IonExchangePhase".
Definition CondensedPhases := new CPhase "CondensedPhases".
Definition ChemicalSystem := new CChemicalSystem "ChemicalSystem".
Definition ChemicalState := new CChemicalState "ChemicalState".
Definition EquilibriumSpecs := new CEquilibriumSpecs "EquilibriumSpecs".
Definition EquilibriumConditions := new CEquilibriumConditions "EquilibriumConditions".
Definition EquilibriumSolver := new CEquilibriumSolver "EquilibriumSolver".
Definition ChemicalProps := new CProps "ChemicalProps".
Definition AqueousProps := new CProps "AqueousProps".
Definition IonExchangeProps := new CProps "IonExchangeProps".
Definition Material := new CMaterial "Material".
Definition ConstraintEquation := new CConstraintEquation "ConstraintEquation".

(** [solver.solve(args)] returns an [EquilibriumResult]. *)
Definition solve (solver : py val) := call_new CEquilibriumResult solver "solve".
(** [equilibrate(state)] likewise. *)
Definition equilibrate := fn_new CEquilibriumResult "equilibrate".

Definition speciate := fn "speciate".
Definition exclude := fn "exclude".
Definition chain := fn "chain".
Definition ActivityModelHKF := fn "ActivityModelHKF".
Definition ActivityModelDrummond := fn "ActivityModelDrummond".
Definition ActivityModelPengRobinson := fn "ActivityModelPengRobinson".
Definition ActivityModelPitzerHMW := fn "ActivityModelPitzerHMW".
Definition ActivityModelDebyeHuckel := fn "ActivityModelDebyeHuckel".
Definition ActivityModelSetschenow := fn "ActivityModelSetschenow".
Definition ActivityModelRedlichKister := fn "ActivityModelRedlichKister".
Definition ActivityModelIdealAqueous := fn "ActivityModelIdealAqueous".
Definition ActivityModelIdealGas := fn "ActivityModelIdealGas".
Definition ActivityModelIdealSolution := fn "ActivityModelIdealSolution".
Definition ActivityModelIdealIonExchange := fn "ActivityModelIdealIonExchange".
Definition ActivityModelIonExchangeGainesThomas := fn "ActivityModelIonExchangeGainesThomas".
Definition ActivityModelIonExchangeVanselow := fn "ActivityModelIonExchangeVanselow".

Arguments PhreeqcDatabase args%_py.
Arguments AqueousPhase args%_py.
Arguments GaseousPhase args%_py.
Arguments MineralPhase args%_py.
Arguments MineralPhases args%_py.
Arguments SolidPhase args%_py.
Arguments IonExchangePhase args%_py.
Arguments CondensedPhases args%_py.
Arguments ChemicalSystem args%_py.
Arguments ChemicalState args%_py.
Arguments EquilibriumSpecs args%_py.
Arguments EquilibriumConditions args%_py.
Arguments EquilibriumSolver args%_py.
Arguments ChemicalProps args%_py.
Arguments AqueousProps args%_py.
Arguments IonExchangeProps args%_py.
Arguments Material args%_py.
Arguments ConstraintEquation args%_py.
Arguments solve solver args%_py.
Arguments equilibrate args%_py.
Arguments speciate args%_py.
Arguments exclude args%_py.
Arguments chain args%_py.
Arguments ActivityModelHKF args%_py.
Arguments ActivityModelDrummond args%_py.
Arguments ActivityModelPengRobinson args%_py.
Arguments ActivityModelPitzerHMW args%_py.
Arguments ActivityModelDebyeHuckel args%_py.
Arguments ActivityModelSetschenow args%_py.
Arguments ActivityModelRedlichKister args%_py.
Arguments ActivityModelIdealAqueous args%_py.
Arguments ActivityModelIdealGas args%_py.
Arguments ActivityModelIdealSolution args%_py.
Arguments ActivityModelIdealIonExchange args%_py.
Arguments ActivityModelIonExchangeGainesThomas args%_py.
Arguments ActivityModelIonExchangeVanselow args%_py.

(** ** numpy grids *)

(** [np.arange(start, stop, step)] and [np.linspace(start, stop, num)].  The
    grid points are kept as exact rationals. *)
Definition arange (start stop step : Q) : list Q :=
  map (λ i : nat, start + inject_Z (Z.of_nat i) * step)
      (seq 0 (Z.to_nat (Qceiling ((stop - start) / step)))).

Definition linspace (start stop : Q) (num : nat) : list Q :=
  map (λ i : nat, start + inject_Z (Z.of_nat i) * ((stop - start) / inject_Z (Z.of_nat (num - 1))))
      (seq 0 num).

(** [range(n)]. *)
Definition range (n : nat) : list val := map (λ i : nat, VNum (inject_Z (Z.of_nat i))) (seq 0 n).

(** ** pandas tables *)

(** [pd.DataFrame(...)] returns a new table: two tables created with the
    same columns are two objects. *)
Definition DataFrame (args : list (py val)) : py val :=
  vs ← eval_args args; o ← alloc CDataFrame;
  emit (EExt "pandas" "DataFrame" vs);; mret o.

Arguments DataFrame args%_py.

Open Scope script_scope.

(** ** The notebooks

    One definition per notebook, named after its file; the cells are taken
    in order, comment-only cells contribute nothing.  A Python function of a
    notebook becomes a function here whose first parameters are the notebook
    globals it reads. *)

(** [df.loc[len(d)] = row]: the row is evaluated before the target. *)
Definition loc_setitem (df : val) (d : val) (row : list (py val)) : py unit :=
  r ← list_ row; ext "pandas" "loc.__setitem__" [df; host "len" [d]; r];; mret tt.
Arguments loc_setitem df d row%_py.

(** [df[df[col] == x]]. *)
Definition df_where (df : val) (col : string) (x : py val) : py val :=
  ext "pandas" "__getitem__" [df; ext "pandas" "__eq__" [ext "pandas" "__getitem__" [df; col]; x]].

(** overview.ipynb has no code cell. *)
Definition overview : py unit := mret tt.

(** tutorials/applications/evian-water-analysis.ipynb *)
Definition evian_water_analysis : py unit :=
  import "reaktoro";; import "math";;
  db ← PhreeqcDatabase ["phreeqc.dat"];
  aqueousphase ← AqueousPhase [speciate ["C Ca Cl H K Mg N Na O S Si"]];
  call aqueousphase "setActivityModel"
    [chain [ActivityModelHKF []; ActivityModelDrummond ["CO2"]]];;
  gaseousphase ← GaseousPhase ["CO2(g)"];
  call gaseousphase "setActivityModel" [ActivityModelPengRobinson []];;
  minerals ← MineralPhases [];
  system ← ChemicalSystem [db; aqueousphase; gaseousphase; minerals];
  specs ← EquilibriumSpecs [system];
  call specs "temperature" [];;
  call specs "pressure" [];;
  call specs "pH" [];;
  solver ← EquilibriumSolver [specs];
  conditions ← EquilibriumConditions [specs];
  call conditions "temperature" [25.0; "celsius"];;
  call conditions "pressure" [1.0; "atm"];;
  call conditions "pH" [7.2];;
  (* cell 3 *)
  state ← ChemicalState [system];
  call state "set" ["H2O"; 1.0; "kg"];;
  call state "set" ["Ca+2"; host "/" [host "*" [80; 1e-6]; call (call db "species" ["Ca+2"]) "molarMass" []]; "mol"];;
  call state "set" ["Cl-"; host "/" [host "*" [6.8; 1e-6]; call (call db "species" ["Cl-"]) "molarMass" []]; "mol"];;
  call state "set" ["HCO3-"; host "/" [host "*" [350; 1e-6]; call (call db "species" ["HCO3-"]) "molarMass" []]; "mol"];;
  call state "set" ["Mg+2"; host "/" [host "*" [26; 1e-6]; call (call db "species" ["Mg+2"]) "molarMass" []]; "mol"];;
  call state "set" ["NO3-"; host "/" [host "*" [3.7; 1e-6]; call (call db "species" ["NO3-"]) "molarMass" []]; "mol"];;
  call state "set" ["K+"; host "/" [host "*" [1; 1e-6]; call (call db "species" ["K+"]) "molarMass" []]; "mol"];;
  call state "set" ["Na+"; host "/" [host "*" [6.5; 1e-6]; call (call db "species" ["Na+"]) "molarMass" []]; "mol"];;
  call state "set" ["SO4-2"; host "/" [host "*" [12.6; 1e-6]; call (call db "species" ["SO4-2"]) "molarMass" []]; "mol"];;
  call state "set" ["SiO2(a)"; host "/" [host "*" [15; 1e-6]; call (call db "species" ["SiO2(a)"]) "molarMass" []]; "mol"];;
  res ← solve solver [state; conditions];
  (* cell 5 *)
  props ← AqueousProps [state];
  print ["SI (Calcite, CaCO3)       = "; call props "saturationIndexLg" ["Calcite"]];;
  print ["SI (Aragonite, CaCO3)     = "; call props "saturationIndexLg" ["Aragonite"]];;
  print ["SI (Dolomite, CaMg(CO3)2) = "; call props "saturationIndexLg" ["Dolomite"]];;
  print ["SI (Quartz, SiO2)         = "; call props "saturationIndexLg" ["Quartz"]];;
  print ["SI (Chalcedony, SiO2)     = "; call props "saturationIndexLg" ["Chalcedony"]].

(** tutorials/applications/ph-dependence-on-co2-addition-in-seawater.ipynb *)
Definition ph_dependence_on_co2_addition_in_seawater : py unit :=
  import "reaktoro";; import "pandas";;
  db ← PhreeqcDatabase ["phreeqc.dat"];
  aqueousphase ← AqueousPhase [speciate ["H O C Ca Mg K Cl Na S N"]];
  call aqueousphase "setActivityModel"
    [chain [ActivityModelHKF []; ActivityModelDrummond ["CO2"]]];;
  gaseousphase ← GaseousPhase ["CO2(g)"];
  call gaseousphase "setActivityModel" [ActivityModelPengRobinson []];;
  system ← ChemicalSystem [db; aqueousphase; gaseousphase];
  solver ← EquilibriumSolver [system];
  (* cell 4 *)
  state ← ChemicalState [system];
  call state "setTemperature" [25; "celsius"];;
  call state "setPressure" [1.0; "bar"];;
  call state "add" ["H2O"; 1.0; "kg"];;
  call state "add" ["Ca+2"; 412.3; "mg"];;
  call state "add" ["Mg+2"; 1290.0; "mg"];;
  call state "add" ["Na+"; 10768.0; "mg"];;
  call state "add" ["K+"; 399.1; "mg"];;
  call state "add" ["Cl-"; 19353.0; "mg"];;
  call state "add" ["HCO3-"; 141.7; "mg"];;
  call state "add" ["SO4-2"; 2712.0; "mg"];;
  solve solver [state];;
  aprops ← AqueousProps [state];
  print ["pH of seawater = "; host "float" [call aprops "pH" []]];;
  (* cell 6 *)
  let co2_0 : val := 0.0 in
  let co2_delta : val := 0.1 in
  let nsteps := 50%nat in
  df ← DataFrame [kw "columns" (list_ ["amountCO2"; "pH"])];
  loc_setitem df df [co2_0; host "float" [call aprops "pH" []]];;
  for_acc (range nsteps) co2_0 (λ i co2_0,
    call state "add" ["CO2(g)"; co2_delta; "mmol"];;
    solve solver [state];;
    call aprops "update" [state];;
    co2_0 ← host "+" [co2_0; co2_delta];
    loc_setitem df df [co2_0; host "float" [call aprops "pH" []]];;
    lit co2_0);;
  (* cell 8 *)
  import "bokeh.plotting";; import "bokeh.models";; import "bokeh.io";;
  ext "bokeh" "output_notebook" [];;
  hovertool ← ext "bokeh" "HoverTool" [];
  ext "bokeh" "tooltips.__set__" [hovertool];;
  p ← ext "bokeh" "figure" [];
  ext "bokeh" "add_tools" [p; hovertool];;
  ext "bokeh" "line" [p; "amountCO2"; "pH"; kw "source" df];;
  ext "bokeh" "show" [p];;
  mret tt.

(** The second notebook stored in the same file, "Computing aqueous
    properties" (from line 188). *)
Definition computing_aqueous_properties : py unit :=
  import "reaktoro";;
  db ← PhreeqcDatabase ["phreeqc.dat"];
  solution ← AqueousPhase [speciate ["H O Na Cl C Ca Si"]];
  call solution "setActivityModel" [ActivityModelPitzerHMW []];;
  gases ← GaseousPhase ["CO2(g) H2O(g)"];
  call gases "setActivityModel" [ActivityModelPengRobinson []];;
  minerals ← MineralPhases [];
  system ← ChemicalSystem [db; solution; gases; minerals];
  state ← ChemicalState [system];
  call state "temperature" [60.0; "celsius"];;
  call state "pressure" [15.0; "atm"];;
  call state "set" ["H2O"; 1.0; "kg"];;
  call state "set" ["Na+"; 1.0; "mol"];;
  call state "set" ["Cl-"; 1.0; "mol"];;
  call state "set" ["CO2"; 0.7; "mol"];;
  call state "set" ["Calcite"; 1.0; "g"];;
  call state "set" ["Quartz"; 1.0; "g"];;
  equilibrate [state];;
  print [state];;
  (* cell 3 *)
  aprops ← AqueousProps [state];
  print [aprops].

(** The third notebook stored in the same file, "Computing thermodynamic
    properties" (from line 338). *)
Definition computing_thermo_props : py unit :=
  import "reaktoro";;
  db ← PhreeqcDatabase ["phreeqc.dat"];
  CO2aq ← call db "species" ["CO2"];
  (* cell 3 *)
  print ["STANDARD THERMODYNAMIC PROPERTIES OF CO2(AQ) AT 60 °C AND 100 BAR"];;
  print [call CO2aq "props" [60; "C"; 100; "bar"]];;
  (* cell 7 *)
  import "numpy";;
  ext "numpy" "__add__" [ext "numpy" "linspace" [25.0; 300.0; 100]; 273.15];;
  let temperatures := map (λ t, t + 273.15) (linspace 25.0 300.0 100) in
  let data : val := VOp "dict" [VKw "T" (VList []); VKw "G0" (VList []); VKw "H0" (VList [])] in
  for_in temperatures (λ T,
    P ← fn "waterSaturationPressureWagnerPruss" [T];
    props ← call CO2aq "props" [T; P];
    host "append" [index data "T"; host "float" [host "-" [T; 273.15]]];;
    host "append" [index data "G0"; host "float" [host "*" [getattr props "G0"; 0.001]]];;
    host "append" [index data "H0"; host "float" [host "*" [getattr props "H0"; 0.001]]];;
    mret tt);;
  (* cell 10 *)
  import "bokeh.plotting";; import "bokeh.models";; import "bokeh.io";;
  ext "bokeh" "output_notebook" [];;
  (* cell 12 *)
  hovertool ← ext "bokeh" "HoverTool" [];
  ext "bokeh" "tooltips.__set__" [hovertool];;
  p ← ext "bokeh" "figure" [];
  ext "bokeh" "add_tools" [p; hovertool];;
  ext "bokeh" "line" [p; "T"; "G0"; kw "source" data];;
  ext "bokeh" "line" [p; "T"; "H0"; kw "source" data];;
  ext "bokeh" "show" [p];;
  (* cell 16 *)
  rxn ← call db "reaction" ["H+ + OH- = H2O"];
  rprops ← call rxn "props" [25.0; "C"; 1.0; "atm"];
  print [rprops].

(** tutorials/applications/ph-dependence-on-contaminants-in-water.ipynb *)
Definition ph_dependence_on_contaminants_in_water : py unit :=
  import "reaktoro";; import "pandas";;
  db ← PhreeqcDatabase ["phreeqc.dat"];
  aqueousphase ← AqueousPhase [speciate ["H O Na Cl N"]];
  call aqueousphase "setActivityModel" [ActivityModelHKF []];;
  system ← ChemicalSystem [db; aqueousphase];
  state ← ChemicalState [system];
  call state "setTemperature" [25; "celsius"];;
  call state "setPressure" [1.0; "bar"];;
  call state "set" ["H2O"; 1.0; "kg"];;
  solver ← EquilibriumSolver [system];
  solve solver [state];;
  aprops ← AqueousProps [state];
  print ["pH of pure water = "; call aprops "pH" []];;
  (* cell 3 *)
  let hcl_0 : val := 0.0 in
  let hcl_delta : val := 0.1 in
  let nsteps := 50%nat in
  pd1 ← DataFrame [kw "columns" (list_ ["amount_HCl"; "pH"])];
  loc_setitem pd1 pd1 [hcl_0; host "float" [call aprops "pH" []]];;
  for_acc (range nsteps) hcl_0 (λ i hcl_0,
    call state "add" ["H+"; hcl_delta; "mmol"];;
    call state "add" ["Cl-"; hcl_delta; "mmol"];;
    solve solver [state];;
    call aprops "update" [state];;
    hcl_0 ← host "+" [hcl_0; hcl_delta];
    loc_setitem pd1 pd1 [hcl_0; host "float" [call aprops "pH" []]];;
    lit hcl_0);;
  (* cell 5 *)
  state ← ChemicalState [system];
  call state "setTemperature" [25; "celsius"];;
  call state "setPressure" [1; "bar"];;
  call state "set" ["H2O"; 1.0; "kg"];;
  solve solver [state];;
  call aprops "update" [state];;
  let nh3_0 : val := 0.0 in
  let nh3_delta : val := 0.1 in
  let nsteps := 50%nat in
  pd2 ← DataFrame [kw "columns" (list_ ["amount_NH3"; "pH"])];
  loc_setitem pd2 pd1 [nh3_0; host "float" [call aprops "pH" []]];;
  for_acc (range nsteps) nh3_0 (λ i nh3_0,
    call state "add" ["NH3"; nh3_delta; "mmol"];;
    solve solver [state];;
    call aprops "update" [state];;
    nh3_0 ← host "+" [nh3_0; nh3_delta];
    loc_setitem pd2 pd2 [nh3_0; host "float" [call aprops "pH" []]];;
    lit nh3_0);;
  (* cell 7 *)
  import "bokeh.plotting";; import "bokeh.models";; import "bokeh.io";;
  ext "bokeh" "output_notebook" [];;
  (* cell 9 *)
  hovertool1 ← ext "bokeh" "HoverTool" [];
  ext "bokeh" "tooltips.__set__" [hovertool1];;
  p1 ← ext "bokeh" "figure" [];
  ext "bokeh" "add_tools" [p1; hovertool1];;
  r11 ← ext "bokeh" "line" [p1; "amount_HCl"; "pH"; kw "source" pd1];
  r21 ← ext "bokeh" "circle" [p1; "amount_HCl"; "pH"; kw "source" pd1];
  legend ← ext "bokeh" "Legend" [r11; r21];
  ext "bokeh" "add_layout" [p1; legend; "right"];;
  hovertool2 ← ext "bokeh" "HoverTool" [];
  ext "bokeh" "tooltips.__set__" [hovertool2];;
  p2 ← ext "bokeh" "figure" [];
  ext "bokeh" "add_tools" [p2; hovertool2];;
  r21 ← ext "bokeh" "line" [p2; "amount_NH3"; "pH"; kw "source" pd2];
  r22 ← ext "bokeh" "x" [p2; "amount_NH3"; "pH"; kw "source" pd2];
  legend ← ext "bokeh" "Legend" [r21; r22];
  ext "bokeh" "add_layout" [p2; legend; "right"];;
  grid ← ext "bokeh" "gridplot" [p1; p2];
  ext "bokeh" "show" [grid];;
  mret tt.


(** tutorials/basics/creating-chemical-states.ipynb *)
Definition creating_chemical_states : py unit :=
  import "reaktoro";;
  db ← PhreeqcDatabase ["phreeqc.dat"];
  gases ← GaseousPhase ["CO2(g) O2(g) H2(g) H2O(g) CH4(g)"];
  system ← ChemicalSystem [db; gases];
  state ← ChemicalState [system];
  call state "temperature" [1000; "celsius"];;
  call state "pressure" [10; "MPa"];;
  call state "set" ["CO2(g)"; 0.1; "mol"];;
  call state "set" ["O2(g)"; 0.2; "mol"];;
  call state "set" ["H2(g)"; 0.3; "mol"];;
  call state "set" ["H2O(g)"; 0.4; "mol"];;
  call state "set" ["CH4(g)"; 0.5; "mol"];;
  print ["INITIAL STATE"];;
  print [state];;
  (* cell 6 *)
  db ← PhreeqcDatabase ["pitzer.dat"];
  solution ← AqueousPhase [];
  minerals ← MineralPhases ["Calcite Quartz"];
  system ← ChemicalSystem [db; solution; minerals];
  state ← ChemicalState [system];
  call state "set" ["H2O"; 1.00; "kg"];;
  call state "surfaceArea" ["AqueousPhase"; "Calcite"; 1.2; "m2"];;
  call state "surfaceArea" ["AqueousPhase"; "Quartz"; 1.4; "m2"];;
  print [state];;
  (* cell 8 *)
  print ["EXISTING SURFACES IN THE CHEMICAL STATE OBJECT"];;
  for_each (call state "surfaces" []) (λ ij,
    i ← index ij 0;
    j ← index ij 1;
    name1 ← call (call system "phase" [i]) "name" [];
    name2 ← call (call system "phase" [j]) "name" [];
    surfarea ← call state "surfaceArea" [i; j];
    print ["Surface area between "; name1; " and "; name2; ": "; surfarea; " m2"]).

(** The second notebook stored in the same file, "Defining chemical
    systems" (from line 176). *)
Definition defining_chemical_systems : py unit :=
  import "reaktoro";;
  db ← PhreeqcDatabase ["phreeqc.dat"];
  solution ← AqueousPhase ["H2O H+ OH- Na+ Cl-"];
  halite ← MineralPhase ["Halite"];
  system ← ChemicalSystem [db; solution; halite];
  (* cell 4 *)
  for_each (call system "phases" []) (λ phase,
    print [call phase "name" []];;
    for_each (call phase "species" []) (λ species,
      print [host "str.+" [":: "; call species "name" []]]));;
  (* cell 6 *)
  print ["Species :"; kw "end" " "];;
  for_each (call system "species" []) (λ species,
    print [call species "name" []; kw "end" " "]);;
  print ["\nElements:"];;
  for_each (call system "elements" []) (λ element,
    print [call element "symbol" []]);;
  (* cell 8 *)
  print [call system "formulaMatrix" []];;
  (* cell 11 *)
  solution ← AqueousPhase [speciate ["H O Na Cl Ca C"]];
  gas ← GaseousPhase [];
  system ← ChemicalSystem [db; solution; gas];
  (* cell 13 *)
  print [host "len" [call system "species" []]; " species found!"];;
  print [host "str.format" ["{:<25}{:<25}{:<20}"; "Name"; "Formula"; "Molar Mass (kg/mol)"]];;
  for_each (call system "species" []) (λ species,
    print [host "str.format" ["{:<25}{:<25}{:<20.6f}"; call species "name" [];
                              call (call species "formula" []) "str" [];
                              call species "molarMass" []]]);;
  (* cell 17 *)
  aqueous_species ← list_ ["H2O"; "CaOH+"; "CO2"; "CO3-2"; "CaCO3"; "Ca+2"; "Cl-"; "H+";
                           "HCO3-"; "Na+"; "OH-"];
  solution ← AqueousPhase [aqueous_species];
  gas ← GaseousPhase [];
  system ← ChemicalSystem [db; solution; gas];
  for_each (call system "species" []) (λ species,
    print [call species "name" []]);;
  (* cell 19 *)
  solution ← AqueousPhase [speciate ["H O Na Cl Ca Mg C Si Fe Al K S"]];
  gas ← GaseousPhase [];
  pureminerals ← MineralPhases [];
  solidsolution ← call (MineralPhase ["Calcite Quartz Gypsum"]) "setName" ["SolidSolution"];
  system ← ChemicalSystem [db; solution; gas; pureminerals; solidsolution];
  for_each (call system "phases" []) (λ phase,
    print [call phase "name" []];;
    for_each (call phase "species" []) (λ species,
      print [host "str.+" [":: "; call species "name" []]]));;
  (* cell 23 *)
  condensed ← CondensedPhases [speciate ["K N O C Ca H S"]];
  gases ← GaseousPhase [];
  system ← ChemicalSystem [db; gases; condensed];
  print ["Gases"];;
  for_each (call system "species" []) (λ species,
    when (host "==" [call species "aggregateState" []; constant "AggregateState.Gas"])
      (print [host "str.+" [":: "; call species "name" []]]));;
  print ["Condensed Phases"];;
  for_each (call system "species" []) (λ species,
    when (host "==" [call species "aggregateState" []; constant "AggregateState.CondensedPhase"])
      (print [host "str.+" [":: "; call species "name" []]])).

(** tutorials/basics/databases.ipynb *)
Definition databases : py unit :=
  import "reaktoro";;
  db ← PhreeqcDatabase ["pitzer.dat"];
  (* cell 3 *)
  species_list ← call db "species" [];
  print [host "len" [species_list]; " fetched in total"];;
  print ["Species"; "Formula"; "Molar Mass (kg/mol)"];;
  for_each species_list (λ species,
    print [call species "name" []; call (call species "formula" []) "str" [];
           call species "molarMass" []]);;
  (* cell 5 *)
  species_list ← call (call db "species" []) "withElements" ["H O C Ca"];
  print [host "len" [species_list]; " fetched in total"];;
  for_each species_list (λ species, print [call species "name" []]);;
  (* cell 7 *)
  species_list ← call db "speciesWithAggregateState" [constant "AggregateState.Gas"];
  print [host "len" [species_list]; " fetched in total:"];;
  for_each species_list (λ species, print [call species "name" []]);;
  (* cell 11 *)
  print ["Symbol"; "Molar Mass (kg/mol)"];;
  for_each (call db "elements" []) (λ element,
    print [call element "symbol" []; call element "molarMass" []]);;
  (* cell 13 *)
  species ← call (call db "species" []) "getWithName" ["Gypsum"];
  print ["Name                : "; call species "name" []];;
  print ["Formula             : "; call species "formula" []];;
  print ["Charge              : "; call species "charge" []];;
  print ["Aggregate state     : "; call species "aggregateState" []];;
  print ["Molar mass (kg/mol) : "; call species "molarMass" []].

(** tutorials/basics/defining-materials.ipynb *)
Definition defining_materials : py unit :=
  import "reaktoro";;
  db ← PhreeqcDatabase ["phreeqc.dat"];
  solution ← AqueousPhase [];
  call solution "setActivityModel" [ActivityModelPitzerHMW []];;
  minerals ← MineralPhases ["Halite Calcite Dolomite Quartz"];
  system ← ChemicalSystem [db; solution; minerals];
  (* cell 6 *)
  state ← ChemicalState [system];
  call state "set" ["H2O"; 1.00; "kg"];;
  call state "set" ["Na+"; 1.00; "mol"];;
  call state "set" ["Ca+2"; 0.10; "mol"];;
  call state "set" ["Mg+2"; 0.05; "mol"];;
  call state "set" ["Cl-"; 1.30; "mol"];;
  call state "set" ["CO2"; 0.10; "mol"];;
  call state "set" ["Quartz"; 80.0; "g"];;
  call state "set" ["Calcite"; 20.0; "g"];;
  call state "scaleFluidMass" [1.0; "kg"];;
  call state "scaleSolidMass" [10.0; "g"];;
  (* cell 8 *)
  call state "temperature" [60.0; "celsius"];;
  call state "pressure" [15.0; "bar"];;
  equilibrate [state];;
  print [state];;
  (* cell 10 *)
  brine ← Material [system];
  call brine "add" ["H2O"; 1.00; "kg"];;
  call brine "add" ["NaCl"; 1.00; "mol"];;
  call brine "add" ["CaCl2"; 0.10; "mol"];;
  call brine "add" ["MgCl2"; 0.05; "mol"];;
  call brine "add" ["CO2"; 0.10; "mol"];;
  rock ← Material [system];
  call rock "add" ["SiO2"; 80.0; "g"];;
  call rock "add" ["CaCO3"; 20.0; "g"];;
  mix ← call_new CMaterial (call_new CMaterial brine "__call__" [1.0; "kg"]) "__add__"
          [call_new CMaterial rock "__call__" [10.0; "g"]];
  state ← call_new CChemicalState mix "equilibrate" [60; "celsius"; 15; "bar"];
  print [state].


(** tutorials/equilibrium/equilibrium-with-custom-constraints.ipynb *)

(** [lambda props, w: props.volume() - w[idxV]] *)
Definition volumeConstraint_fn (idxV : val) (props w : val) : py val :=
  host "-" [call props "volume" []; index w idxV].

(** [lambda props, w: props.internalEnergy() - w[idxU]] *)
Definition internalEnergyConstraint_fn (idxU : val) (props w : val) : py val :=
  host "-" [call props "internalEnergy" []; index w idxU].

(** [def pH(props): return -props.speciesActivityLg(idxH)] *)
Definition pH (idxH : val) (props : val) : py val :=
  host "neg" [call props "speciesActivityLg" [idxH]].

Definition equilibrium_with_custom_constraints : py unit :=
  import "reaktoro";;
  db ← PhreeqcDatabase ["llnl.dat"];
  gases ← GaseousPhase ["CH4(g) O2(g) CO2(g) CO(g) H2O(g) H2(g)"];
  system ← ChemicalSystem [db; gases];
  state ← ChemicalState [system];
  call state "temperature" [25.0; "celsius"];;
  call state "pressure" [1.0; "bar"];;
  call state "set" ["CH4(g)"; 0.75; "mol"];;
  call state "set" ["O2(g)"; 0.25; "mol"];;
  call state "scaleVolume" [10.0; "cm3"];;
  props0 ← ChemicalProps [state];
  V0 ← call props0 "volume" [];
  U0 ← call props0 "internalEnergy" [];
  (* cell 4 *)
  specs ← EquilibriumSpecs [system];
  idxV ← call specs "addInput" ["V"];
  idxU ← call specs "addInput" ["U"];
  volumeConstraint ← ConstraintEquation [];
  setattr volumeConstraint "id" "VolumeConstraint";;
  setattr volumeConstraint "fn" (VLam "volumeConstraint_fn");;
  internalEnergyConstraint ← ConstraintEquation [];
  setattr internalEnergyConstraint "id" "InternalEnergyConstraint";;
  setattr internalEnergyConstraint "fn" (VLam "internalEnergyConstraint_fn");;
  call specs "addConstraint" [volumeConstraint];;
  call specs "addConstraint" [internalEnergyConstraint];;
  solver ← EquilibriumSolver [specs];
  (* cell 6 *)
  conditions ← EquilibriumConditions [specs];
  call conditions "set" ["V"; V0];;
  call conditions "set" ["U"; U0];;
  call conditions "setLowerBoundTemperature" [25.0; "celsius"];;
  call conditions "setUpperBoundTemperature" [100.0; "celsius"];;
  call conditions "setLowerBoundPressure" [1.0; "bar"];;
  call conditions "setUpperBoundPressure" [100.0; "bar"];;
  (* cell 8 *)
  solve solver [state; conditions];;
  print ["FINAL STATE"];;
  print [state];;
  (* cell 12 *)
  import "reaktoro";;
  db ← PhreeqcDatabase ["phreeqc.dat"];
  solution ← AqueousPhase [speciate ["H O Na Cl C Ca"]];
  call solution "setActivityModel"
    [chain [ActivityModelHKF []; ActivityModelDrummond ["CO2"]]];;
  gases ← GaseousPhase ["CO2(g) H2O(g)"];
  call gases "setActivityModel" [ActivityModelPengRobinson []];;
  calcite ← MineralPhase ["Calcite"];
  system ← ChemicalSystem [db; solution; gases; calcite];
  (* cell 14; the function [pH] is defined here and not called *)
  idxH ← call (call system "species" []) "index" ["H+"];
  (* cell 18 *)
  state ← ChemicalState [system];
  call state "temperature" [25.0; "celsius"];;
  call state "pressure" [1.0; "atm"];;
  call state "set" ["H2O"; 1.0; "kg"];;
  call state "set" ["Na+"; 1.0; "mol"];;
  call state "set" ["Cl-"; 1.0; "mol"];;
  call state "set" ["Calcite"; 10.0; "mol"];;
  (* cell 20 *)
  specs ← EquilibriumSpecs [system];
  call specs "temperature" [];;
  call specs "pressure" [];;
  call specs "pH" [];;
  conditions ← EquilibriumConditions [specs];
  call conditions "temperature" [30.0; "celsius"];;
  call conditions "pressure" [5.0; "atm"];;
  call conditions "set" ["pH"; 7.0];;
  solver ← EquilibriumSolver [specs];
  solve solver [state; conditions];;
  aprops ← AqueousProps [state];
  print [aprops].

(** tutorials/equilibrium/equilibrium-with-fixed-fugacity.ipynb *)
Definition equilibrium_with_fixed_fugacity : py unit :=
  import "reaktoro";;
  db ← PhreeqcDatabase ["phreeqc.dat"];
  solution ← AqueousPhase [speciate ["H O Na Cl C Ca"]];
  call solution "setActivityModel" [ActivityModelHKF []];;
  calcite ← MineralPhase ["Calcite"];
  system ← ChemicalSystem [db; solution; calcite];
  (* cell 3 *)
  specs ← EquilibriumSpecs [system];
  call specs "temperature" [];;
  call specs "pressure" [];;
  call specs "fugacity" ["CO2(g)"];;
  solver ← EquilibriumSolver [specs];
  let fCO2g : val := 0.1 in
  conditions ← EquilibriumConditions [specs];
  call conditions "temperature" [50.0; "celsius"];;
  call conditions "pressure" [10.0; "bar"];;
  call conditions "fugacity" ["CO2(g)"; fCO2g; "bar"];;
  (* cell 6 *)
  state ← ChemicalState [system];
  call state "temperature" [50.0; "celsius"];;
  call state "pressure" [10.0; "bar"];;
  call state "set" ["H2O"; 1.0; "kg"];;
  call state "set" ["Na+"; 1.0; "mol"];;
  call state "set" ["Cl-"; 1.0; "mol"];;
  call state "set" ["Calcite"; 10; "g"];;
  result ← solve solver [state; conditions];
  ok ← optima_succeeded result;
  print [if_else "Successful computation!" ok "Computation has failed!"];;
  print ["EQUILIBRIUM STATE"];;
  print [state];;
  (* cell 8 *)
  props ← ChemicalProps [state];
  print [props];;
  (* cell 10 *)
  aprops ← AqueousProps [state];
  print [aprops];;
  (* cell 12 *)
  import "math";;
  let R := constant "universalGasConstant" in
  T ← call props "temperature" [];
  P ← call props "pressure" [];
  uCO2aq ← call props "speciesChemicalPotential" ["CO2"];
  u0CO2g ← getattr (call (call (call db "species" []) "get" ["CO2(g)"]) "props" [T; P]) "G0";
  uCO2g ← host "+" [u0CO2g; host "*" [host "*" [R; T]; host "log" [fCO2g]]];
  print ["μCO2(aq) = "; uCO2aq; " J/mol"];;
  print ["μCO2(g)  = "; uCO2g; " J/mol"].

(** tutorials/equilibrium/equilibrium-with-fixed-ph-charge-balance.ipynb *)
Definition equilibrium_with_fixed_ph_charge_balance : py unit :=
  import "reaktoro";;
  db ← PhreeqcDatabase ["phreeqc.dat"];
  solution ← AqueousPhase ["H2O H+ OH- Na+ Cl- HCO3- CO2 CO3-2"];
  call solution "setActivityModel" [ActivityModelDebyeHuckel []];;
  system ← ChemicalSystem [db; solution];
  (* cell 3 *)
  specs ← EquilibriumSpecs [system];
  call specs "temperature" [];;
  call specs "pressure" [];;
  call specs "pH" [];;
  call specs "charge" [];;
  call specs "openTo" ["Cl-"];;
  solver ← EquilibriumSolver [specs];
  (* cell 5 *)
  state ← ChemicalState [system];
  call state "temperature" [30.0; "celsius"];;
  call state "pressure" [1.0; "bar"];;
  call state "set" ["H2O"; 1.00; "kg"];;
  call state "set" ["Na+"; 0.01; "mol"];;
  call state "set" ["Cl-"; 0.01; "mol"];;
  call state "set" ["CO2"; 0.10; "mol"];;
  print ["INITIAL STATE"];;
  print [state];;
  (* cell 7 *)
  conditions ← EquilibriumConditions [specs];
  call conditions "temperature" [50.0; "celsius"];;
  call conditions "pressure" [10.0; "bar"];;
  call conditions "pH" [2.0];;
  call conditions "charge" [0.0];;
  result ← solve solver [state; conditions];
  ok ← optima_succeeded result;
  print [if_else "Successful computation!" ok "Computation has failed!"];;
  print ["FINAL STATE"];;
  print [state].

(** tutorials/equilibrium/equilibrium-with-fixed-ph.ipynb *)
Definition equilibrium_with_fixed_ph : py unit :=
  import "reaktoro";;
  db ← PhreeqcDatabase ["pitzer.dat"];
  solution ← AqueousPhase ["H2O H+ OH- Na+ Cl- HCO3- CO2 CO3-2"];
  call solution "setActivityModel" [ActivityModelPitzerHMW []];;
  system ← ChemicalSystem [db; solution];
  (* cell 3 *)
  specs ← EquilibriumSpecs [system];
  call specs "temperature" [];;
  call specs "pressure" [];;
  call specs "pH" [];;
  solver ← EquilibriumSolver [specs];
  (* cell 5 *)
  state ← ChemicalState [system];
  call state "temperature" [30.0; "celsius"];;
  call state "pressure" [1.0; "atm"];;
  call state "set" ["H2O"; 1.0; "kg"];;
  call state "set" ["Na+"; 1.0; "mol"];;
  call state "set" ["Cl-"; 1.0; "mol"];;
  call state "set" ["CO2"; 0.4; "mol"];;
  print ["INITIAL STATE"];;
  print [state];;
  (* cell 7 *)
  conditions ← EquilibriumConditions [specs];
  call conditions "temperature" [50.0; "celsius"];;
  call conditions "pressure" [10.0; "atm"];;
  call conditions "pH" [1.0];;
  solve solver [state; conditions];;
  print ["FINAL STATE"];;
  print [state];;
  (* cell 9 *)
  aprops ← AqueousProps [state];
  print ["AQUEOUS PROPERTIES AT EQUILIBRIUM"];;
  print [aprops].

(** tutorials/equilibrium/equilibrium-with-fixed-phase-amount.ipynb *)
Definition equilibrium_with_fixed_phase_amount : py unit :=
  import "reaktoro";;
  db ← PhreeqcDatabase ["pitzer.dat"];
  solution ← AqueousPhase [speciate ["H O Na Cl C"]];
  call solution "setActivityModel" [ActivityModelPitzerHMW []];;
  gases ← GaseousPhase ["CO2(g) H2O(g)"];
  call gases "setActivityModel" [ActivityModelPengRobinson []];;
  system ← ChemicalSystem [db; solution; gases];
  (* cell 3 *)
  state ← ChemicalState [system];
  call state "temperature" [60.0; "celsius"];;
  call state "set" ["H2O"; 1.0; "kg"];;
  call state "set" ["Na+"; 1.0; "mol"];;
  call state "set" ["Cl-"; 1.0; "mol"];;
  call state "set" ["CO2"; 1.0; "mol"];;
  print ["INITIAL STATE"];;
  print [state];;
  (* cell 5 *)
  specs ← EquilibriumSpecs [system];
  call specs "temperature" [];;
  call specs "phaseAmount" ["GaseousPhase"];;
  solver ← EquilibriumSolver [specs];
  conditions ← EquilibriumConditions [specs];
  call conditions "temperature" [60.0; "celsius"];;
  call conditions "phaseAmount" ["GaseousPhase"; 1.0; "umol"];;
  call conditions "setLowerBoundPressure" [1.0; "bar"];;
  call conditions "setUpperBoundPressure" [1000.0; "bar"];;
  solve solver [state; conditions];;
  print ["FINAL STATE"];;
  print [state].

(** tutorials/equilibrium/equilibrium-with-fixed-volume-internal-energy.ipynb *)
Definition equilibrium_with_fixed_volume_internal_energy : py unit :=
  import "reaktoro";;
  db ← PhreeqcDatabase ["llnl.dat"];
  gases ← GaseousPhase ["CH4(g) O2(g) CO2(g) CO(g) H2O(g) H2(g)"];
  system ← ChemicalSystem [db; gases];
  (* cell 3 *)
  state ← ChemicalState [system];
  call state "temperature" [25.0; "celsius"];;
  call state "pressure" [1.0; "bar"];;
  call state "set" ["CH4(g)"; 0.75; "mol"];;
  call state "set" ["O2(g)"; 0.25; "mol"];;
  call state "scaleVolume" [10.0; "cm3"];;
  print ["INITIAL STATE"];;
  print [state];;
  (* cell 5 *)
  props ← ChemicalProps [state];
  V0 ← call props "volume" [];
  U0 ← call props "internalEnergy" [];
  print ["Initial volume of the gases is"; V0; "m3"];;
  print ["Initial internal energy of the gases is"; U0; "J"];;
  (* cell 7 *)
  specs ← EquilibriumSpecs [system];
  call specs "volume" [];;
  call specs "internalEnergy" [];;
  solver ← EquilibriumSolver [specs];
  conditions ← EquilibriumConditions [specs];
  call conditions "volume" [V0];;
  call conditions "internalEnergy" [U0];;
  call conditions "setLowerBoundTemperature" [25.0; "celsius"];;
  call conditions "setUpperBoundTemperature" [100.0; "celsius"];;
  call conditions "setLowerBoundPressure" [1.0; "bar"];;
  call conditions "setUpperBoundPressure" [100.0; "bar"];;
  (* cell 10 *)
  solve solver [state; conditions];;
  print ["FINAL STATE"];;
  print [state];;
  (* cell 13 *)
  V ← call (call state "props" []) "volume" [];
  U ← call (call state "props" []) "internalEnergy" [];
  print ["Volume at initial state:"; V0; "m3"];;
  print ["Volume at final state:"; V; "m3"];;
  print ["Internal energy at initial state:"; U0; "J"];;
  print ["Internal energy at final state:"; U; "J"];;
  (* cell 15 *)
  T ← fn "units.convert" [call state "temperature" []; "K"; "degC"];
  P ← fn "units.convert" [call state "pressure" []; "Pa"; "bar"];
  print ["Temperature at final state:"; T; "°C"];;
  print ["Pressure at final state:"; P; "bar"].

(** The second notebook stored in the same file, "Chemical equilibrium: the
    basics" (from line 231). *)
Definition equilibrium_basics : py unit :=
  import "reaktoro";;
  db ← PhreeqcDatabase ["llnl.dat"];
  gases ← GaseousPhase ["CH4(g) O2(g) CO(g) CO2(g) H2O(g) H2(g)"];
  system ← ChemicalSystem [db; gases];
  (* cell 3 *)
  state ← ChemicalState [system];
  call state "setTemperature" [25; "celsius"];;
  call state "setPressure" [100; "bar"];;
  call state "set" ["CH4(g)"; 1.0; "mol"];;
  call state "set" ["O2(g)"; 0.5; "mol"];;
  print ["=== INITIAL STATE ==="];;
  print [state];;
  (* cell 5 *)
  solver ← EquilibriumSolver [system];
  solve solver [state];;
  print ["=== FINAL STATE ==="];;
  print [state];;
  (* cell 8 *)
  state ← ChemicalState [system];
  call state "temperature" [25; "celsius"];;
  call state "pressure" [100; "bar"];;
  call state "set" ["CH4(g)"; 1.0; "mol"];;
  call state "set" ["O2(g)"; 0.5; "mol"];;
  solver ← EquilibriumSolver [system];
  result ← solve solver [state];
  print ["Has solver converged?"; optima_succeeded result].

(** unnamed/part_000, "Chemical equilibrium with constraints" *)
Definition part_000 : py unit :=
  import "reaktoro";;
  db ← PhreeqcDatabase ["llnl.dat"];
  gases ← GaseousPhase ["CH4(g) O2(g) CO2(g) CO(g) H2O(g) H2(g)"];
  system ← ChemicalSystem [db; gases];
  solver ← EquilibriumSolver [system];
  (* cell 4 *)
  state ← ChemicalState [system];
  call state "set" ["O2(g)"; 0.5; "mol"];;
  (* cell 6 *)
  specs ← EquilibriumSpecs [system];
  call specs "temperature" [];;
  call specs "volume" [];;
  call specs "pressure" [];;
  call specs "openTo" ["CH4"];;
  (* cell 8 *)
  conditions ← EquilibriumConditions [specs];
  call conditions "temperature" [25.0; "celsius"];;
  call conditions "volume" [10.0; "cm3"];;
  call conditions "pressure" [1.0; "GPa"];;
  solver ← EquilibriumSolver [specs];
  solve solver [state; conditions];;
  print [call state "props" []];;
  (* cell 10 *)
  print ["Amount of CH4 titrated in:";
         host "float" [call (call state "equilibrium" []) "explicitTitrantAmounts" []];
         "mol"].


(** tutorials/exchange/ion-exchnage-mix-porewater-extractant.ipynb *)
Definition ion_exchnage_mix_porewater_extractant : py unit :=
  import "reaktoro";;
  db ← PhreeqcDatabase ["phreeqc.dat"];
  (* cell 3 *)
  solution ← AqueousPhase ["H2O Na+ Cl- H+ OH- K+ Ca+2 Mg+2"];
  call solution "setActivityModel" [ActivityModelHKF []];;
  (* cell 5 *)
  exchange ← IonExchangePhase ["CaX2 MgX2 NaX"];
  call exchange "setActivityModel" [ActivityModelIonExchangeVanselow []];;
  system ← ChemicalSystem [db; solution; exchange];
  aqprops ← AqueousProps [system];
  exprops ← IonExchangeProps [system];
  solver ← EquilibriumSolver [system];
  (* cell 7 *)
  state ← ChemicalState [system];
  call state "setTemperature" [25.0; "celsius"];;
  call state "setPressure" [1.0; "atm"];;
  call state "add" ["H2O"; 1.0; "kg"];;
  call state "add" ["Na+"; 1.1; "mmol"];;
  call state "add" ["Mg+2"; 0.48; "mmol"];;
  call state "add" ["Ca+2"; 1.9; "mmol"];;
  call state "add" ["NaX"; 0.05e-3; "mol"];;
  call state "add" ["Na+"; -0.05e-3; "mol"];;
  (* cell 9 *)
  solve solver [state];;
  call aqprops "update" [state];;
  call exprops "update" [state];;
  (* cell 11 *)
  print ["Porewater in equilibrium with exchanger X:"];;
  print ["------------------------------------------"];;
  print ["I  = "; call aqprops "ionicStrength" []; " mol/kgw"];;
  print ["Z  = "; call state "charge" []; " eq/kgw"];;
  print ["pH = "; call aqprops "pH" []; "\n"];;
  print ["n(CaX2) = "; call exprops "speciesAmount" ["CaX2"]; " mole"];;
  print ["n(MgX2) = "; call exprops "speciesAmount" ["MgX2"]; " mole"];;
  print ["n(NaX)  = "; call exprops "speciesAmount" ["NaX"]; " mole\n"];;
  (* cell 13 *)
  let scale : val := 20e-3 in
  call state "add" ["H2O"; host "*" [scale; 1.0]; "kg"];;
  call state "add" ["Na+"; host "*" [scale; 1e3]; "mmol"];;
  call state "add" ["Cl-"; host "*" [scale; 1e3]; "mmol"];;
  solve solver [state];;
  call aqprops "update" [state];;
  call exprops "update" [state];;
  (* cell 15 *)
  print ["Mix exchanger with 20 g of extractant:"];;
  print ["--------------------------------------"];;
  print ["I  = "; call aqprops "ionicStrength" []; " mol/kgw"];;
  print ["Z  = "; call state "charge" []; " eq/kgw"];;
  print ["pH = "; call aqprops "pH" []; "\n"];;
  print ["n(CaX2) = "; call exprops "speciesAmount" ["CaX2"]; " mole"];;
  print ["n(MgX2) = "; call exprops "speciesAmount" ["MgX2"]; " mole"];;
  print ["n(NaX)  = "; call exprops "speciesAmount" ["NaX"]; " mole\n"];;
  print ["m(Ca+2) = "; call aqprops "speciesMolality" ["Ca+2"]; " molal"];;
  print ["m(Mg+2) = "; call aqprops "speciesMolality" ["Mg+2"]; " molal"];;
  print ["m(Cl-)  = "; call aqprops "speciesMolality" ["Cl-"]; " molal"];;
  print ["m(Na+)  = "; call aqprops "speciesMolality" ["Na+"]; " molal"].

(** tutorials/solubility/solubility-calcite-in-water-rainwater.ipynb *)

Definition water (system : val) : py val :=
  state ← ChemicalState [system];
  call state "add" ["H2O"; 1.0; "kg"];;
  lit state.

Definition rainwater (system : val) : py val :=
  state ← ChemicalState [system];
  call state "set" ["H2O"; 1.0; "kg"];;
  call state "set" ["Na+"; 2.05; "mg"];;
  call state "set" ["K+"; 0.35; "mg"];;
  call state "set" ["Ca+2"; 1.42; "mg"];;
  call state "set" ["Mg+2"; 0.39; "mg"];;
  call state "set" ["Cl-"; 3.47; "mg"];;
  call state "set" ["SO4-2"; 2.19; "mg"];;
  call state "set" ["NO3-"; 0.27; "mg"];;
  call state "set" ["NH4+"; 0.41; "mg"];;
  call state "set" ["CO2"; 0.36; "mol"];;
  lit state.

Definition seawater (system : val) : py val :=
  state ← ChemicalState [system];
  call state "setTemperature" [25; "celsius"];;
  call state "setPressure" [1.0; "bar"];;
  call state "add" ["H2O"; 1.0; "kg"];;
  call state "add" ["Ca+2"; 412.3; "mg"];;
  call state "add" ["Mg+2"; 1290.0; "mg"];;
  call state "add" ["Na+"; 10768.0; "mg"];;
  call state "add" ["K+"; 399.1; "mg"];;
  call state "add" ["Cl-"; 19353.0; "mg"];;
  call state "add" ["HCO3-"; 141.7; "mg"];;
  call state "add" ["SO4-2"; 2712.0; "mg"];;
  lit state.

(** The comparison of [tag] with a string literal is decided by the notebook
    itself. *)
Definition solubility_of_calcite (conditions solver aprops df_water df_rainwater : val)
    (state : py val) (T P : val) (tag : string) : py unit :=
  state ← state;
  let n0Calcite : val := 10.0 in
  call conditions "temperature" [T; "celsius"];;
  call conditions "pressure" [P; "bar"];;
  res ← solve solver [state; conditions];
  call state "set" ["Calcite"; n0Calcite; "mol"];;
  res ← solve solver [state];
  call aprops "update" [state];;
  nCalcite ← host "float" [call state "speciesAmount" ["Calcite"]];
  if String.eqb tag "water" then
    loc_setitem df_water df_water
      [T; P; host "float" [call aprops "pH" []]; host "-" [n0Calcite; nCalcite]]
  else if String.eqb tag "rainwater" then
    loc_setitem df_rainwater df_rainwater
      [T; P; host "float" [call aprops "pH" []]; host "-" [n0Calcite; nCalcite]]
  else mret tt.

Definition solubility_calcite_in_water_rainwater : py unit :=
  import "reaktoro";; import "numpy";; import "pandas";;
  db ← PhreeqcDatabase ["phreeqc.dat"];
  aqueousphase ← AqueousPhase [speciate ["H O C Ca Mg K Cl Na S N"]];
  call aqueousphase "setActivityModel"
    [chain [ActivityModelHKF []; ActivityModelDrummond ["CO2"]]];;
  gaseousphase ← GaseousPhase ["CO2(g)"];
  call gaseousphase "setActivityModel" [ActivityModelPengRobinson []];;
  mineral ← MineralPhase ["Calcite"];
  system ← ChemicalSystem [db; aqueousphase; gaseousphase; mineral];
  (* cell 3 *)
  specs ← EquilibriumSpecs [system];
  call specs "temperature" [];;
  call specs "pressure" [];;
  call specs "charge" [];;
  call specs "openTo" ["Cl-"];;
  conditions ← EquilibriumConditions [specs];
  call conditions "charge" [0.0; "mol"];;
  solver ← EquilibriumSolver [specs];
  aprops ← AqueousProps [system];
  (* cell 7 *)
  ext "numpy" "arange" [20.0; 91.0; 5.0];;
  let temperatures := arange 20.0 91.0 5.0 in
  ext "numpy" "array" [list_ [1; 10; 100]];;
  let pressures : list Q := [1; 10; 100] in
  df_water ← DataFrame [kw "columns" (list_ ["T"; "P"; "pH"; "deltaCalcite"])];
  df_rainwater ← DataFrame [kw "columns" (list_ ["T"; "P"; "pH"; "deltaCalcite"])];
  for_in temperatures (λ T,
    for_in pressures (λ P,
      solubility_of_calcite conditions solver aprops df_water df_rainwater
        (water system) T P "water";;
      solubility_of_calcite conditions solver aprops df_water df_rainwater
        (rainwater system) T P "rainwater"));;
  (* cell 9 *)
  df_water_25C ← df_where df_water "T" 25.0;
  df_water_25C_P1 ← df_where df_water_25C "P" 1.0;
  deltaCalcite ← ext "pandas" "iloc.__getitem__"
                   [ext "pandas" "__getitem__" [df_water_25C_P1; "deltaCalcite"]; 0];
  print ["Solubility of calcite in water (closed system) equals to "; deltaCalcite;
         " mol/kgw = ... = "; host "*" [host "*" [deltaCalcite; 0.1000869]; 1e3]; " g/L"];;
  (* cell 12 *)
  import "bokeh.plotting";; import "bokeh.io";;
  ext "bokeh" "output_notebook" [];;
  df_water_P1 ← df_where df_water "P" 1.0;
  df_rainwater_P1 ← df_where df_rainwater "P" 1.0;
  p ← ext "bokeh" "figure" [];
  ext "bokeh" "line" [p; "T"; "deltaCalcite"; kw "source" df_water_P1];;
  ext "bokeh" "line" [p; "T"; "deltaCalcite"; kw "source" df_rainwater_P1];;
  ext "bokeh" "show" [p];;
  (* cell 14 *)
  import "bokeh.models";; import "bokeh.plotting";; import "bokeh.models";;
  let colors : list string := ["teal"; "darkred"; "indigo"; "coral"] in
  hovertool1 ← ext "bokeh" "HoverTool" [];
  ext "bokeh" "tooltips.__set__" [hovertool1];;
  p1 ← ext "bokeh" "figure" [];
  ext "bokeh" "add_tools" [p1; hovertool1];;
  for_in (zip pressures colors) (λ '(P, color),
    df_water_P ← ext "bokeh" "ColumnDataSource" [df_where df_water "P" P];
    ext "bokeh" "line" [p1; "T"; "deltaCalcite"; kw "line_color" color; kw "source" df_water_P];;
    mret tt);;
  ext "bokeh" "legend.location.__set__" [p1; "top_right"];;
  hovertool2 ← ext "bokeh" "HoverTool" [];
  ext "bokeh" "tooltips.__set__" [hovertool2];;
  p2 ← ext "bokeh" "figure" [];
  ext "bokeh" "add_tools" [p2; hovertool2];;
  for_in (zip pressures colors) (λ '(P, color),
    df_rainwater_P ← ext "bokeh" "ColumnDataSource"
                       [ext "pandas" "__getitem__"
                          [df_rainwater;
                           ext "pandas" "__eq__" [ext "pandas" "__getitem__" [df_water; "P"]; P]]];
    ext "bokeh" "line" [p2; "T"; "deltaCalcite"; kw "line_color" color; kw "source" df_rainwater_P];;
    mret tt);;
  grid ← ext "bokeh" "gridplot" [p1; p2];
  ext "bokeh" "show" [grid];;
  (* cell 16 *)
  let co2_0 : val := 0.0 in
  let co2_delta : val := 2.0 in
  let nsteps := 50%nat in
  df_seawater ← DataFrame
                  [kw "columns" (list_ ["amountCO2"; "pH"; "deltaCalcite"; "mCO2aq"])];
  let T : val := 25 in
  let P : val := 1 in
  for_acc (range nsteps) co2_0 (λ i co2_0,
    let n0Calcite : val := 10.0 in
    call conditions "temperature" [T; "celsius"];;
    call conditions "pressure" [P; "bar"];;
    state ← seawater system;
    call state "set" ["CO2(g)"; co2_0; "mmol"];;
    res ← solve solver [state; conditions];
    call state "set" ["Calcite"; n0Calcite; "mol"];;
    res ← solve solver [state];
    call aprops "update" [state];;
    nCalcite ← host "float" [call state "speciesAmount" ["Calcite"]];
    nCO2aq ← host "float" [call state "speciesAmount" ["CO2"]];
    co2_0 ← host "+" [co2_0; co2_delta];
    loc_setitem df_seawater df_seawater
      [co2_0; host "float" [call aprops "pH" []]; host "-" [n0Calcite; nCalcite]; nCO2aq];;
    lit co2_0);;
  (* cell 18 *)
  hovertool1 ← ext "bokeh" "HoverTool" [];
  ext "bokeh" "tooltips.__set__" [hovertool1];;
  p1 ← ext "bokeh" "figure" [];
  ext "bokeh" "add_tools" [p1; hovertool1];;
  ext "bokeh" "line" [p1; "amountCO2"; "pH"; kw "source" df_seawater];;
  p2 ← ext "bokeh" "figure" [];
  ext "bokeh" "add_tools" [p2; hovertool1];;
  ext "bokeh" "line" [p2; "amountCO2"; "deltaCalcite"; kw "source" df_seawater];;
  p3 ← ext "bokeh" "figure" [];
  ext "bokeh" "add_tools" [p3; hovertool1];;
  ext "bokeh" "line" [p3; "amountCO2"; "mCO2aq"; kw "source" df_seawater];;
  grid ← ext "bokeh" "gridplot" [p1; p2; p3];
  ext "bokeh" "show" [grid];;
  mret tt.

(** The second notebook stored in the same file, "Opening bottle with
    sparkling water" (from line 502). *)
Definition opening_bottle_with_soda : py unit :=
  import "reaktoro";;
  db ← PhreeqcDatabase ["phreeqc.dat"];
  aqueousphase ← AqueousPhase [speciate ["H O C"]];
  call aqueousphase "setActivityModel"
    [chain [ActivityModelHKF []; ActivityModelDrummond ["CO2"]]];;
  gaseousphase ← GaseousPhase ["CO2(g)"];
  call gaseousphase "setActivityModel" [ActivityModelPengRobinson []];;
  system ← ChemicalSystem [db; aqueousphase; gaseousphase];
  solver ← EquilibriumSolver [system];
  (* cell 3 *)
  import "numpy";;
  let closedP := 3.79 in
  let openP := 1.01325 in
  ext "numpy" "linspace" [openP; closedP; kw "num" 100];;
  let pressures := linspace openP closedP 100 in
  (* cell 5 *)
  import "pandas";;
  df ← DataFrame [kw "columns" (list_ ["P"; "amountCO2"])];
  for_in pressures (λ P,
    state ← ChemicalState [system];
    call state "setTemperature" [20.0; "celsius"];;
    call state "setPressure" [P; "bar"];;
    call state "add" ["H2O"; 0.5; "kg"];;
    call state "add" ["CO2"; 0.18; "mol"];;
    res ← solve solver [state];
    loc_setitem df df [P; host "float" [call state "speciesAmount" ["CO2(g)"]]]);;
  (* cell 7 *)
  import "bokeh.plotting";; import "bokeh.models";; import "bokeh.io";;
  ext "bokeh" "output_notebook" [];;
  hovertool ← ext "bokeh" "HoverTool" [];
  ext "bokeh" "tooltips.__set__" [hovertool];;
  p ← ext "bokeh" "figure" [];
  ext "bokeh" "add_tools" [p; hovertool];;
  ext "bokeh" "line" [p; "P"; "amountCO2"; kw "source" df];;
  ext "bokeh" "show" [p];;
  mret tt.

(** tutorials/solubility/solubility-tablesalt-water.ipynb *)
Definition solubility_tablesalt_water : py unit :=
  import "reaktoro";;
  db ← PhreeqcDatabase ["phreeqc.dat"];
  aqueousphase ← AqueousPhase [speciate ["H O Na Cl C"]; exclude ["organic"]];
  call aqueousphase "setActivityModel"
    [chain [ActivityModelHKF []; ActivityModelDrummond ["CO2"]]];;
  mineral ← MineralPhase ["Halite"];
  system ← ChemicalSystem [db; aqueousphase; mineral];
  (* cell 3 *)
  state ← ChemicalState [system];
  call state "setTemperature" [25; "celsius"];;
  call state "setPressure" [1; "bar"];;
  call state "set" ["H2O"; 1.0; "kg"];;
  call state "set" ["Halite"; 1.0; "mg"];;
  (* cell 5 *)
  res ← equilibrate [state];
  print [state];;
  (* cell 7 *)
  call state "set" ["Halite"; 1.0; "kg"];;
  print ["Initial amount of halite : "; call state "speciesAmount" ["Halite"]; " mol"];;
  res ← equilibrate [state];
  print ["Amount of halite : "; call state "speciesAmount" ["Halite"]; " mol"].

(** The second notebook stored in the same file, "Gypsum/anhydrite
    solubility in water" (from line 172). *)

Definition water_problem (system : val) (T P : val) : py val :=
  state ← ChemicalState [system];
  call state "temperature" [T; "celsius"];;
  call state "pressure" [P; "bar"];;
  call state "add" ["H2O"; 1.0; "kg"];;
  lit state.

Definition solubility_anhydrite_water : py unit :=
  import "reaktoro";; import "numpy";; import "math";;
  (* cell 3 *)
  db ← PhreeqcDatabase ["phreeqc.dat"];
  aqueousphase ← AqueousPhase [speciate ["H O Ca S"]; exclude ["organic"]];
  call aqueousphase "setActivityModel" [ActivityModelHKF []];;
  minerals ← MineralPhases ["Anhydrite"];
  system ← ChemicalSystem [db; aqueousphase; minerals];
  props ← ChemicalProps [system];
  aprops ← AqueousProps [system];
  solver ← EquilibriumSolver [system];
  (* cell 5 *)
  reaction ← call db "reaction" ["Anhydrite = SO4-2 + Ca+2"];
  (* cell 9 *)
  import "pandas";;
  df ← DataFrame
         [kw "columns" (list_ ["T"; "P"; "I"; "pH"; "SI"; "log10K"; "dAnhydrite"])];
  ext "numpy" "arange" [0.0; 91.0; 5.0];;
  let temperatures := arange 0.0 91.0 5.0 in
  ext "numpy" "array" [list_ [1.0; 100.0; 1000.0]];;
  let pressures : list Q := [1.0; 100.0; 1000.0] in
  for_in pressures (λ P,
    for_in temperatures (λ T,
      let n0Anhydrite : val := 5.0 in
      state ← water_problem system T P;
      solve solver [state];;
      call state "set" ["Anhydrite"; n0Anhydrite; "mol"];;
      solve solver [state];;
      call props "update" [state];;
      call aprops "update" [state];;
      I ← host "float" [call aprops "ionicStrength" []];
      pH ← host "float" [call aprops "pH" []];
      SI ← host "float" [call aprops "saturationIndexLg" ["Anhydrite"]];
      log10K ← host "float" [getattr (call reaction "props" [T; "C"; P; "bar"]) "lgK"];
      dAnhydrite ← host "-" [n0Anhydrite; host "float" [call state "speciesAmount" ["Anhydrite"]]];
      loc_setitem df df [T; P; I; pH; SI; log10K; dAnhydrite]));;
  (* cell 12 *)
  df_25C ← df_where df "T" 25.0;
  df_25C_P1 ← df_where df_25C "P" 1.0;
  deltaAnhydrite ← ext "pandas" "iloc.__getitem__"
                     [ext "pandas" "__getitem__" [df_25C_P1; "dAnhydrite"]; 0];
  print ["Solubility of anhydrite in water equals to "; deltaAnhydrite;
         " mol/kgw = ... = "; host "*" [host "*" [deltaAnhydrite; 0.17217]; 1e3]; " g/L"];;
  (* cell 14 *)
  df_25C ← df_where df "T" 25.0;
  df_25C_P1 ← df_where df_25C "P" 1.0;
  deltaAnhydrite ← ext "pandas" "iloc.__getitem__"
                     [ext "pandas" "__getitem__" [df_25C_P1; "dAnhydrite"]; 0];
  let lnK : val := -9.9159 in
  log10K ← host "*" [lnK; host "log10" [host "exp" [1]]];
  print ["Anhydrite/gypsum logK = "; log10K];;
  (* cell 16 *)
  import "bokeh.plotting";; import "bokeh.models";; import "bokeh.io";; import "bokeh.models";;
  ext "bokeh" "output_notebook" [];;
  hovertool1 ← ext "bokeh" "HoverTool" [];
  ext "bokeh" "tooltips.__set__" [hovertool1];;
  p1 ← ext "bokeh" "figure" [];
  ext "bokeh" "add_tools" [p1; hovertool1];;
  let colors : list string := ["teal"; "darkred"; "indigo"; "coral"] in
  for_in (zip pressures colors) (λ '(P, color),
    df_P ← ext "bokeh" "ColumnDataSource" [df_where df "P" P];
    ext "bokeh" "line" [p1; "T"; "dAnhydrite"; kw "line_color" color; kw "source" df_P];;
    mret tt);;
  ext "bokeh" "legend.location.__set__" [p1; "top_right"];;
  ext "bokeh" "output_notebook" [];;
  hovertool2 ← ext "bokeh" "HoverTool" [];
  ext "bokeh" "tooltips.__set__" [hovertool2];;
  p2 ← ext "bokeh" "figure" [];
  ext "bokeh" "add_tools" [p2; hovertool2];;
  let colors : list string := ["teal"; "darkred"; "indigo"; "coral"] in
  for_in (zip pressures colors) (λ '(P, color),
    df_P ← ext "bokeh" "ColumnDataSource" [df_where df "P" P];
    ext "bokeh" "line" [p2; "T"; "SI"; kw "line_color" color; kw "source" df_P];;
    mret tt);;
  ext "bokeh" "legend.location.__set__" [p2; "top_right"];;
  grid ← ext "bokeh" "gridplot" [p1; p2];
  ext "bokeh" "show" [grid];;
  mret tt.

(** unnamed/part_001, "Specifying activity models" *)
Definition part_001 : py unit :=
  import "reaktoro";;
  db ← PhreeqcDatabase ["phreeqc.dat"];
  solution ← AqueousPhase [speciate ["H O Na Cl C Ca Mg"]];
  gases ← GaseousPhase ["CO2(g) H2O(g)"];
  solidsolution ← MineralPhase ["Siderite Rhodochrosite"];
  ionexchange ← IonExchangePhase ["NaX CaX2"];
  system ← ChemicalSystem [db; solution; gases; solidsolution; ionexchange];
  (* cell 3 *)
  solution ← AqueousPhase [speciate ["H O Na Cl C Ca Mg"]];
  call solution "setActivityModel" [ActivityModelIdealAqueous []];;
  gases ← GaseousPhase ["CO2(g) H2O(g)"];
  call gases "setActivityModel" [ActivityModelIdealGas []];;
  solidsolution ← MineralPhase ["Siderite Rhodochrosite"];
  call solidsolution "setActivityModel" [ActivityModelIdealSolution [constant "StateOfMatter.Solid"]];;
  ionexchange ← IonExchangePhase ["NaX CaX2"];
  call ionexchange "setActivityModel" [ActivityModelIdealIonExchange []];;
  system ← ChemicalSystem [db; solution; gases; solidsolution; ionexchange];
  (* cell 6 *)
  solution ← AqueousPhase [speciate ["H O Na Cl"]];
  system ← ChemicalSystem [db; solution];
  (* cell 8 *)
  state ← ChemicalState [system];
  call state "temperature" [25; "celsius"];;
  call state "pressure" [1; "bar"];;
  call state "set" ["H2O"; 1.0; "kg"];;
  call state "set" ["Na+"; 1.0; "mol"];;
  call state "set" ["Cl-"; 1.0; "mol"];;
  print ["Species"; "Activity Coefficient"];;
  props ← ChemicalProps [state];
  for_each (call system "species" []) (λ species,
    print [call species "name" [];
           call props "speciesActivityCoefficient" [call species "name" []]]);;
  (* cell 10 *)
  solution ← AqueousPhase [speciate ["H O Na Cl"]];
  call solution "setActivityModel"
    [chain [ActivityModelHKF [];
            ActivityModelSetschenow ["O2"; 0.123];
            ActivityModelSetschenow ["H2"; 0.234];
            ActivityModelSetschenow ["NaOH"; 0.345]]];;
  system ← ChemicalSystem [db; solution];
  state ← ChemicalState [system];
  call state "temperature" [25; "celsius"];;
  call state "pressure" [1; "bar"];;
  call state "set" ["H2O"; 1.0; "kg"];;
  call state "set" ["Na+"; 1.0; "mol"];;
  call state "set" ["Cl-"; 1.0; "mol"];;
  print ["Species"; "Activity Coefficient"];;
  props ← ChemicalProps [state];
  for_each (call system "species" []) (λ species,
    print [call species "name" [];
           call props "speciesActivityCoefficient" [call species "name" []]]);;
  (* cell 15 *)
  gases ← GaseousPhase ["CO2(g) CH4(g) H2O(g) O2(g) H2(g)"];
  call gases "setActivityModel" [ActivityModelPengRobinson []];;
  system ← ChemicalSystem [db; gases];
  (* cell 17 *)
  state ← ChemicalState [system];
  call state "temperature" [100.0; "celsius"];;
  call state "pressure" [1.0; "bar"];;
  call state "set" ["CO2(g)"; 0.80; "mol"];;
  call state "set" ["CH4(g)"; 0.10; "mol"];;
  call state "set" ["H2O(g)"; 0.05; "mol"];;
  call state "set" ["O2(g)"; 0.03; "mol"];;
  call state "set" ["H2(g)"; 0.02; "mol"];;
  props ← ChemicalProps [state];
  print ["Gas"; "Fugacity Coefficient"];;
  for_each (host "range" [call (call system "species" []) "size" []]) (λ i,
    print [call (call system "species" [i]) "name" [];
           call props "speciesActivityCoefficient" [i]]);;
  (* cell 19 *)
  print [props];;
  (* cell 22 *)
  let a0 : val := 1.0 in
  let a1 : val := 2.0 in
  let a2 : val := 3.0 in
  solidsolution ← SolidPhase ["K-feldspar Albite"];
  call solidsolution "setActivityModel" [ActivityModelRedlichKister [a0; a1; a2]];;
  system ← ChemicalSystem [db; solidsolution];
  state ← ChemicalState [system];
  call state "set" ["K-feldspar"; 0.5; "mol"];;
  call state "set" ["Albite"; 0.5; "mol"];;
  props ← ChemicalProps [state];
  print [props];;
  (* cell 24 *)
  solution ← AqueousPhase ["H2O Na+ Cl- H+ OH- K+ Ca+2 Mg+2"];
  call solution "setActivityModel" [ActivityModelDebyeHuckel []];;
  exchange ← IonExchangePhase ["NaX KX CaX2 MgX2"];
  call exchange "setActivityModel" [ActivityModelIonExchangeGainesThomas []];;
  system ← ChemicalSystem [db; solution; exchange];
  state ← ChemicalState [system];
  call state "set" ["H2O"; 1.00; "kg"];;
  call state "set" ["Na+"; 1.00; "mmol"];;
  call state "set" ["K+"; 1.00; "mmol"];;
  call state "set" ["Mg+2"; 1.00; "mmol"];;
  call state "set" ["Ca+2"; 1.00; "mmol"];;
  call state "set" ["NaX"; 0.06; "umol"];;
  call state "set" ["KX"; 0.02; "umol"];;
  call state "set" ["CaX2"; 0.01; "umol"];;
  call state "set" ["MgX2"; 0.01; "umol"];;
  props ← ChemicalProps [state];
  print [props].

(** The second notebook stored in unnamed/part_001, "Computing chemical
    properties" (from line 444). *)
Definition computing_chemical_properties : py unit :=
  import "reaktoro";;
  db ← PhreeqcDatabase ["phreeqc.dat"];
  solution ← AqueousPhase [speciate ["H O Na Cl C"]];
  system ← ChemicalSystem [db; solution];
  state ← ChemicalState [system];
  call state "temperature" [60.0; "celsius"];;
  call state "pressure" [15.0; "atm"];;
  call state "set" ["H2O"; 1.0; "kg"];;
  call state "set" ["Na+"; 1.0; "mol"];;
  call state "set" ["Cl-"; 1.0; "mol"];;
  call state "set" ["CO2"; 0.7; "mol"];;
  equilibrate [state];;
  print [state];;
  (* cell 3 *)
  props ← ChemicalProps [state];
  print [props];;
  (* cell 5 *)
  solution ← AqueousPhase [speciate ["H O Na Cl C Ca Si"]];
  call solution "setActivityModel" [ActivityModelPitzerHMW []];;
  gases ← GaseousPhase [];
  call gases "setActivityModel" [ActivityModelPengRobinson []];;
  minerals ← MineralPhases [];
  system ← ChemicalSystem [db; solution; gases; minerals];
  state ← ChemicalState [system];
  call state "temperature" [60.0; "celsius"];;
  call state "pressure" [15.0; "atm"];;
  call state "set" ["H2O"; 1.0; "kg"];;
  call state "set" ["Na+"; 1.0; "mol"];;
  call state "set" ["Cl-"; 1.0; "mol"];;
  call state "set" ["CO2"; 0.7; "mol"];;
  call state "set" ["Calcite"; 1.0; "g"];;
  call state "set" ["Quartz"; 1.0; "g"];;
  equilibrate [state];;
  props ← call state "props" [];
  print [props];;
  (* cell 7 *)
  call state "temperature" [70.0; "celsius"];;
  call state "add" ["Na+"; 1.0; "mol"];;
  call state "add" ["Cl-"; 1.0; "mol"];;
  call props "update" [state];;
  print [props];;
  (* cell 9 *)
  print ["SYSTEM'S TEMPERATURE     : "; call props "temperature" []; " K    "];;
  print ["AQUEOUS PHASE'S DENSITY  : "; call (call props "phaseProps" ["AqueousPhase"]) "density" []; " kg/m3"];;
  print ["AQUEOUS PHASE'S ENTHALPY : "; call (call props "phaseProps" ["AqueousPhase"]) "enthalpy" []; " J/mol"];;
  print ["GASEOUS PHASE'S DENSITY  : "; call (call props "phaseProps" ["GaseousPhase"]) "density" []; " kg/m3"];;
  print ["GASEOUS PHASE'S ENTHALPY : "; call (call props "phaseProps" ["GaseousPhase"]) "enthalpy" []; " J/mol"];;
  print ["ACTIVITY H+              : "; call props "speciesActivity" ["H+"]; "      "];;
  print ["ACTIVITY H+ (LOG10)      : "; call props "speciesActivityLg" ["H+"]; "      "];;
  print ["ACTIVITY COEFF. CO2      : "; call props "speciesActivityCoefficient" ["CO2"]; "      "];;
  print ["FUGACITY COEFF. CO2(g)   : "; call props "speciesActivityCoefficient" ["CO2(g)"]; "      "].

(** All notebooks of the repository. *)
Definition notebooks : list (string * py unit) :=
  [ ("overview", overview);
    ("evian-water-analysis", evian_water_analysis);
    ("ph-dependence-on-co2-addition-in-seawater", ph_dependence_on_co2_addition_in_seawater);
    ("computing-aqueous-properties", computing_aqueous_properties);
    ("computing-thermo-props", computing_thermo_props);
    ("ph-dependence-on-contaminants-in-water", ph_dependence_on_contaminants_in_water);
    ("creating-chemical-states", creating_chemical_states);
    ("defining-chemical-systems", defining_chemical_systems);
    ("databases", databases);
    ("defining-materials", defining_materials);
    ("equilibrium-with-custom-constraints", equilibrium_with_custom_constraints);
    ("equilibrium-with-fixed-fugacity", equilibrium_with_fixed_fugacity);
    ("equilibrium-with-fixed-ph-charge-balance", equilibrium_with_fixed_ph_charge_balance);
    ("equilibrium-with-fixed-ph", equilibrium_with_fixed_ph);
    ("equilibrium-with-fixed-phase-amount", equilibrium_with_fixed_phase_amount);
    ("equilibrium-with-fixed-volume-internal-energy", equilibrium_with_fixed_volume_internal_energy);
    ("equilibrium-basics", equilibrium_basics);
    ("equilibrium-specifying-constraints", part_000);
    ("ion-exchnage-mix-porewater-extractant", ion_exchnage_mix_porewater_extractant);
    ("solubility-calcite-in-water-rainwater", solubility_calcite_in_water_rainwater);
    ("opening-bottle-with-soda", opening_bottle_with_soda);
    ("solubility-tablesalt-water", solubility_tablesalt_water);
    ("solubility-anhydrite-water", solubility_anhydrite_water);
    ("specifying-activity-models", part_001);
    ("computing-chemical-properties", computing_chemical_properties) ].

Close Scope script_scope.

(** ** Monitors

    A property of a notebook is checked by a monitor that reads the trace
    event by event, carrying a state; [None] is a violation.  The trace
    depends on the library through the number of repetitions of a loop over
    a library collection and through the conditions on library data.  On
    the folded events, the body of a loop or of a condition is checked once
    and has to leave the monitor state as it found it; a check passed this
    way is passed on the trace for every library. *)

Section Monitor.
Context {S : Type} `{EqDecision S}.
Variable step : S → event → option S.

Fixpoint monitor (s : S) (t : list event) : option S :=
  match t with
  | [] => Some s
  | e :: t' => match step s e with Some s' => monitor s' t' | None => None end
  end.

Definition accepts (s : S) (t : list event) : bool :=
  match monitor s t with Some _ => true | None => false end.

Fixpoint monitor_folded_event (s : S) (e : event) {struct e} : option S :=
  let body_stable (body : list event) :=
    match (fix go (s1 : S) (l : list event) {struct l} : option S :=
             match l with
             | [] => Some s1
             | e' :: l' =>
                 match monitor_folded_event s1 e' with
                 | Some s2 => go s2 l'
                 | None => None
                 end
             end) s body with
    | Some s' => if decide (s' = s) then Some s else None
    | None => None
    end in
  match e with
  | ELoop _ body => body_stable body
  | EIf _ body => body_stable body
  | _ => step s e
  end.

Fixpoint monitor_folded (s : S) (t : list event) : option S :=
  match t with
  | [] => Some s
  | e :: t' =>
      match monitor_folded_event s e with
      | Some s' => monitor_folded s' t'
      | None => None
      end
  end.

Definition accepts_folded (s : S) (t : list event) : bool :=
  match monitor_folded s t with Some _ => true | None => false end.

End Monitor.

(** ** Objects mentioned by an event *)

Fixpoint objs (v : val) : list (cls * nat) :=
  match v with
  | VObj c id => [(c, id)]
  | VRes recv _ args => objs recv ++ flat_map objs args
  | VApp _ args => flat_map objs args
  | VOp _ args => flat_map objs args
  | VItem coll => objs coll
  | VList l => flat_map objs l
  | VKw _ v' => objs v'
  | _ => []
  end.

(** The objects an event takes as receiver or argument... *)
Definition uses (e : event) : list (cls * nat) :=
  match e with
  | ENew _ _ args _ => flat_map objs args
  | ECall recv _ args _ => objs recv ++ flat_map objs args
  | EFun _ args _ => flat_map objs args
  | EHost _ args => flat_map objs args
  | EPrint args => flat_map objs args
  | EExt _ _ args => flat_map objs args
  | _ => []
  end.

(** ...and the object it creates, if any. *)
Definition creates (e : event) : option (cls * nat) :=
  match e with
  | ENew _ _ _ (VObj c id) => Some (c, id)
  | ECall _ _ _ (VObj c id) => Some (c, id)
  | EFun _ _ (VObj c id) => Some (c, id)
  | _ => None
  end.

(** The object at the root of an access path such as
    [system.species().index("H+")]. *)
Fixpoint root (v : val) : option (cls * nat) :=
  match v with
  | VObj c id => Some (c, id)
  | VRes recv _ _ => root recv
  | VItem coll => root coll
  | _ => None
  end.

Definition is_obj (c : cls) (v : val) : bool :=
  match v with VObj c' _ => bool_decide (c' = c) | _ => false end.

(** A property object is one the notebook constructed ([inl], with its
    identity), or the one a state carries, [state.props()] ([inr], with the
    identity of the state). *)
Definition props_key (v : val) : option (nat + nat) :=
  match v with
  | VObj CProps p => Some (inl p)
  | VRes (VObj CChemicalState st) "props" [] => Some (inr st)
  | _ => None
  end.

(** The property object at the root of an access path such as
    [props.phaseProps("AqueousPhase").density()]. *)
Fixpoint props_root (v : val) : option (nat + nat) :=
  match props_key v with
  | Some k => Some k
  | None =>
      match v with
      | VRes recv _ _ => props_root recv
      | VItem coll => props_root coll
      | _ => None
      end
  end.

(** A phase, as constructed or as returned by [setName], which returns the
    phase it names. *)
Fixpoint is_phase (v : val) : bool :=
  match v with
  | VObj CPhase _ => true
  | VRes recv "setName" _ => is_phase recv
  | _ => false
  end.

(** ** The data-flow of a notebook *)

(** What each library object is created from.  A database and a phase take
    names and species lists, no library object.  A system takes a database,
    then phases.  A state, a specification and a material take a system;
    conditions take a specification; a solver takes a system or a
    specification; a property object takes a state or a system, and is
    updated with a state; a constraint equation takes nothing.  A material
    is also obtained by scaling a material, [material(amount, unit)], and by
    adding two materials.  An equilibrium calculation is either
    [solver.solve(state)] or [solver.solve(state, conditions)] on a solver,
    or [equilibrate(state)] without a solver, both returning a result; or
    [material.equilibrate(T, unit, P, unit)], returning a new state.  No
    other event creates an object. *)
Definition solve_args (args : list val) : bool :=
  match args with
  | [st] => is_obj CChemicalState st
  | [st; cond] => is_obj CChemicalState st && is_obj CEquilibriumConditions cond
  | _ => false
  end.

Definition no_object (args : list val) : bool :=
  forallb (λ v, bool_decide (objs v = [])) args.

Definition constructed_from (c : cls) (args : list val) : bool :=
  match c, args with
  | CDatabase, _ | CPhase, _ => no_object args
  | CChemicalSystem, db :: phases => is_obj CDatabase db && forallb is_phase phases
  | CChemicalState, [x] | CEquilibriumSpecs, [x] | CMaterial, [x] => is_obj CChemicalSystem x
  | CEquilibriumConditions, [x] => is_obj CEquilibriumSpecs x
  | CEquilibriumSolver, [x] => is_obj CChemicalSystem x || is_obj CEquilibriumSpecs x
  | CProps, [x] => is_obj CChemicalState x || is_obj CChemicalSystem x
  | CConstraintEquation, [] => true
  | _, _ => false
  end.

Definition returned_by (recv : val) (meth : string) (args : list val) (c : cls) : bool :=
  match recv with
  | VObj CEquilibriumSolver _ =>
      bool_decide (meth = "solve" ∧ c = CEquilibriumResult) && solve_args args
  | VObj CMaterial _ =>
      if bool_decide (meth = "__call__") then
        bool_decide (c = CMaterial ∧ length args = 2%nat) && no_object args
      else if bool_decide (meth = "__add__") then
        bool_decide (c = CMaterial) && match args with [m] => is_obj CMaterial m | _ => false end
      else if bool_decide (meth = "equilibrate") then
        bool_decide (c = CChemicalState ∧ length args = 4%nat) && no_object args
      else false
  | _ => false
  end.

Definition built_from (e : event) : bool :=
  match e with
  | ENew c _ args (VObj c' _) => bool_decide (c' = c) && constructed_from c args
  | ENew _ _ _ _ => false
  | ECall recv meth args (VObj c _) => returned_by recv meth args c
  | ECall recv meth args _ =>
      bool_decide (meth ≠ "solve") &&
      (if bool_decide (meth = "update") && bool_decide (is_Some (props_key recv))
       then match args with [st] => is_obj CChemicalState st | _ => false end
       else true)
  | EFun f args (VObj c _) =>
      bool_decide (f = "equilibrate" ∧ c = CEquilibriumResult) &&
      match args with [st] => is_obj CChemicalState st | _ => false end
  | EFun f _ _ => bool_decide (f ≠ "equilibrate")
  | _ => true
  end.

(** The monitor state maps the identity of every library object created so
    far to its class.  An event mentions library objects with the class they
    were created with, and creates an object as [built_from] tells. *)
Definition dependency_step (s : gmap nat cls) (e : event) : option (gmap nat cls) :=
  if forallb (λ o : cls * nat, bool_decide (o.1 = CDataFrame) || bool_decide (s !! o.2 = Some o.1))
             (uses e) && built_from e then
    match creates e with
    | Some (c, id) => if bool_decide (s !! id = None) then Some (<[id := c]> s) else None
    | None => Some s
    end
  else None.

Definition dependencies_respected (t : list event) : bool :=
  accepts dependency_step ∅ t.

(** The order in which the stages are listed: database, system, state and
    specification, solver, solve, properties. *)
Definition stage (e : event) : option nat :=
  match e with
  | ENew CDatabase _ _ _ => Some 0%nat
  | ENew CChemicalSystem _ _ _ => Some 1%nat
  | ENew CChemicalState _ _ _ => Some 2%nat
  | ENew CEquilibriumSpecs _ _ _ => Some 2%nat
  | ENew CEquilibriumSolver _ _ _ => Some 3%nat
  | ECall _ "solve" _ _ => Some 4%nat
  | EFun "equilibrate" _ _ => Some 4%nat
  | ENew CProps _ _ _ => Some 5%nat
  | _ => None
  end.

(** The state the event solves, or computes properties of. *)
Definition state_arg (e : event) : option nat :=
  match e with
  | ECall _ "solve" (VObj CChemicalState st :: _) _ => Some st
  | EFun "equilibrate" (VObj CChemicalState st :: _) _ => Some st
  | ENew CProps _ (VObj CChemicalState st :: _) _ => Some st
  | _ => None
  end.

(** The stages in the listed order: a stage never comes after a later one
    (a notebook may start over with a new database or system), and
    properties are computed from a state only after it has been solved.
    The monitor state is the last stage and the set of solved states. *)
Definition stage_order_step (s : nat * gset nat) (e : event) : option (nat * gset nat) :=
  match stage e with
  | None => Some s
  | Some r =>
      if (r <=? 1)%nat || (s.1 <=? r)%nat then
        match r, state_arg e with
        | 4%nat, Some st => Some (r, {[st]} ∪ s.2)
        | 5%nat, Some st => if bool_decide (st ∈ s.2) then Some (r, s.2) else None
        | _, _ => Some (r, s.2)
        end
      else None
  end.

Definition follows_stage_order (t : list event) : bool :=
  accepts stage_order_step (0%nat, ∅) t.

(** ** Specifications and conditions *)

(** The input a method of [EquilibriumSpecs] declares, by its symbol. *)
Definition input_symbols : list (string * string) :=
  [("temperature", "T"); ("pressure", "P"); ("volume", "V"); ("internalEnergy", "U");
   ("pH", "pH"); ("charge", "charge")].

Definition symbol_of (meth : string) : option string :=
  (list_to_map input_symbols : gmap string string) !! meth.

Definition indexed_inputs : list string := ["fugacity"; "phaseAmount"].

Definition declares (meth : string) (args : list val) : option string :=
  match args with
  | [] => symbol_of meth
  | [VStr x] =>
      if bool_decide (meth = "addInput") then Some x
      else if bool_decide (meth ∈ indexed_inputs) then Some (meth +:+ "[" +:+ x +:+ "]")
      else None
  | _ => None
  end.

(** The input a method of [EquilibriumConditions] gives a value to. *)
Definition sets_value (meth : string) (args : list val) : option string :=
  match args with
  | [] => None
  | VStr x :: rest =>
      if bool_decide (meth = "set") then Some x
      else if bool_decide (meth ∈ indexed_inputs) then Some (meth +:+ "[" +:+ x +:+ "]")
      else symbol_of meth
  | _ :: _ => symbol_of meth
  end.

(** The variable a method of [EquilibriumConditions] bounds. *)
Definition bound_symbols : list (string * string) :=
  [("setLowerBoundTemperature", "T"); ("setUpperBoundTemperature", "T");
   ("setLowerBoundPressure", "P"); ("setUpperBoundPressure", "P")].

Definition bounds (meth : string) : option string :=
  (list_to_map bound_symbols : gmap string string) !! meth.

(** The monitor state: the inputs declared so far by each specification, the
    specification each conditions object was constructed from, and the
    specification each solver was constructed from. *)
Record pairing := Pairing {
  declared : gmap nat (gset string);
  specs_of : gmap nat nat;
  solver_specs : gmap nat nat
}.

Global Instance pairing_eq_dec : EqDecision pairing.
Proof. solve_decision. Defined.

Definition paired_specs (s : pairing) : list nat := (map_to_list (specs_of s)).*2.

(** [bounds_declared] tells whether a bound is expected on a declared input
    ([true]) or on a variable left undeclared ([false]). *)
Definition conditions_step (bounds_declared : bool) (s : pairing) (e : event) : option pairing :=
  match e with
  | ENew CEquilibriumSpecs _ _ (VObj _ sp) =>
      Some (Pairing (<[sp := ∅]> (declared s)) (specs_of s) (solver_specs s))
  | ECall (VObj CEquilibriumSpecs sp) meth args _ =>
      match declares meth args with
      | Some x => Some (Pairing (alter (λ d, {[x]} ∪ d) sp (declared s)) (specs_of s) (solver_specs s))
      | None => Some s
      end
  | ENew CEquilibriumConditions _ args (VObj _ c) =>
      match args with
      | [VObj CEquilibriumSpecs sp] =>
          if bool_decide (sp ∈ paired_specs s) then None
          else Some (Pairing (declared s) (<[c := sp]> (specs_of s)) (solver_specs s))
      | _ => None
      end
  | ENew CEquilibriumSolver _ [VObj CEquilibriumSpecs sp] (VObj _ sv) =>
      Some (Pairing (declared s) (specs_of s) (<[sv := sp]> (solver_specs s)))
  | ECall (VObj CEquilibriumSolver sv) "solve" [_; VObj CEquilibriumConditions c] _ =>
      if bool_decide (is_Some (specs_of s !! c) ∧ solver_specs s !! sv = specs_of s !! c)
      then Some s else None
  | ECall (VObj CEquilibriumConditions c) meth args _ =>
      match specs_of s !! c with
      | None => None
      | Some sp =>
          let d := default ∅ (declared s !! sp) in
          match sets_value meth args, bounds meth with
          | Some x, _ => if bool_decide (x ∈ d) then Some s else None
          | None, Some x =>
              if bool_decide (bool_decide (x ∈ d) = bounds_declared) then Some s else None
          | None, None => None
          end
      end
  | _ => Some s
  end.

Definition no_pairing : pairing := Pairing ∅ ∅ ∅.

(** Values and bounds are set only for declared inputs. *)
Definition conditions_on_declared_inputs (t : list event) : bool :=
  accepts (conditions_step true) no_pairing t.

(** Values are set only for declared inputs, bounds only for variables that
    were not declared as inputs. *)
Definition conditions_match_specs (t : list event) : bool :=
  accepts (conditions_step false) no_pairing t.

(** ** Chemical systems *)

(** The methods the notebooks call on a system, or on what they obtained
    from it. *)
Definition system_accessors : list string :=
  ["species"; "phases"; "elements"; "formulaMatrix"; "phase"; "name"; "index"; "size";
   "symbol"; "aggregateState"; "formula"; "str"; "molarMass"].

(** The classes whose constructor takes a system. *)
Definition system_readers : list cls :=
  [CChemicalState; CEquilibriumSpecs; CEquilibriumSolver; CProps; CMaterial].

Definition phases_of (args : list val) : list nat :=
  omap (λ v, match root v with Some (CPhase, p) => Some p | _ => None end) args.

(** The monitor state is the set of phases that belong to a system.  A
    system takes phases that belong to no system yet; a phase that belongs
    to a system is not touched again; a system is only read: it is the
    receiver of accessors, and an argument of constructors only. *)
Definition system_step (frozen : gset nat) (e : event) : option (gset nat) :=
  match e with
  | ENew CChemicalSystem _ args _ =>
      if forallb (λ p, bool_decide (p ∉ frozen)) (phases_of args)
      then Some (list_to_set (phases_of args) ∪ frozen) else None
  | ENew c _ args _ =>
      if existsb (is_obj CChemicalSystem) args
      then if bool_decide (c ∈ system_readers) then Some frozen else None
      else Some frozen
  | ECall recv meth args _ =>
      if existsb (is_obj CChemicalSystem) args then None else
      match root recv with
      | Some (CPhase, p) => if bool_decide (p ∉ frozen) then Some frozen else None
      | Some (CChemicalSystem, _) =>
          if bool_decide (meth ∈ system_accessors) then Some frozen else None
      | _ => Some frozen
      end
  | EFun _ args _ => if existsb (is_obj CChemicalSystem) args then None else Some frozen
  | EExt _ _ args => if existsb (is_obj CChemicalSystem) args then None else Some frozen
  | _ => Some frozen
  end.

Definition systems_never_modified (t : list event) : bool :=
  accepts system_step ∅ t.

(** ** Solver results *)

Definition is_flag_read (e : event) : bool :=
  match e with
  | ECall (VObj CEquilibriumResult _) "optima.succeeded" [] _ => true
  | _ => false
  end.

Arguments is_flag_read : simpl never.

(** A result object is used for nothing but reading its flag. *)
Definition result_step (_ : unit) (e : event) : option unit :=
  if is_flag_read e || forallb (λ o : cls * nat, negb (bool_decide (o.1 = CEquilibriumResult))) (uses e)
  then Some tt else None.

Definition results_only_inspected (t : list event) : bool := accepts result_step tt t.

(** An equilibrium calculation: [solver.solve], [equilibrate(state)], or
    [material.equilibrate]. *)
Definition is_calculation (e : event) : bool :=
  match e with
  | ECall _ "solve" _ _ | ECall _ "equilibrate" _ _ | EFun "equilibrate" _ _ => true
  | _ => false
  end.

(** The result object an event returns, if it returns one. *)
Definition result_of (e : event) : option nat :=
  match e with
  | ECall _ _ _ (VObj CEquilibriumResult id) | EFun _ _ (VObj CEquilibriumResult id) => Some id
  | _ => None
  end.

(** A calculation that returns no result object, hence no flag. *)
Definition is_flagless (e : event) : bool :=
  is_calculation e && bool_decide (result_of e = None).

Arguments is_flagless : simpl never.

Definition calculations_return_result (t : list event) : bool :=
  forallb (λ e, negb (is_flagless e)) t.

(** The messages of the cells that report on a solve. *)
Definition message (ok : bool) : string :=
  if ok then "Successful computation!" else "Computation has failed!".

(** What a printed value tells about the outcome of a solve: the flag
    itself, or one of the two messages. *)
Definition verdict_shown (v : val) : option bool :=
  match v with
  | VBool b => Some b
  | VStr s =>
      if bool_decide (s = message true) then Some true
      else if bool_decide (s = message false) then Some false
      else None
  | _ => None
  end.

(** A print that tells about the outcome of a solve. *)
Definition is_report (e : event) : bool :=
  match e with
  | EPrint args => existsb (λ v, bool_decide (is_Some (verdict_shown v))) args
  | _ => false
  end.

Arguments is_report : simpl never.

(** The monitor state: the result objects returned so far, and the flag
    that has been read and not yet printed.  A flag is read from a result
    that a calculation returned, and the value read is what the library
    tells for that result; a print that tells about the outcome of a solve
    follows the reading of a flag and shows that flag, or the message for
    it. *)
Definition report_step (lib : library) (s : gset nat * option bool) (e : event)
    : option (gset nat * option bool) :=
  match result_of e with
  | Some id => Some ({[id]} ∪ s.1, s.2)
  | None =>
      match e with
      | ECall (VObj CEquilibriumResult id) "optima.succeeded" [] b =>
          if bool_decide (id ∈ s.1 ∧ b = VBool (succeeded lib id))
          then Some (s.1, Some (succeeded lib id)) else None
      | EPrint args =>
          if is_report e then
            match s.2 with
            | Some ok =>
                if forallb (λ v, bool_decide (verdict_shown v = None ∨ verdict_shown v = Some ok))
                           args
                then Some (s.1, None) else None
            | None => None
            end
          else Some s
      | _ => Some s
      end
  end.

Definition flags_reported (lib : library) (t : list event) : bool :=
  accepts (report_step lib) (∅, None) t.

(** What a run does apart from reporting on its solves: the value of each
    flag read and the text of each print that tells about the outcome of a
    solve are blanked; every other event, every other print included, is
    kept as it is. *)
Fixpoint blank (e : event) : event :=
  match e with
  | EPrint _ => if is_report e then EPrint [] else e
  | ECall recv meth args _ => if is_flag_read e then ECall recv meth args VNone else e
  | ELoop coll body => ELoop coll (map blank body)
  | EIf cond body => EIf cond (map blank body)
  | _ => e
  end.

(** ** Reuse of a solver *)

(** The objects of a class that a run constructs, the solver each of its
    solves goes through, and the methods it calls on objects of a class. *)
Definition constructed (c : cls) (t : list event) : list nat :=
  omap (λ e, match e with
             | ENew c' _ _ (VObj _ id) => if bool_decide (c' = c) then Some id else None
             | _ => None
             end) t.

Definition solvers_used (t : list event) : list nat :=
  omap (λ e, match e with
             | ECall (VObj CEquilibriumSolver sv) "solve" _ _ => Some sv
             | _ => None
             end) t.

Definition methods_called (c : cls) (t : list event) : list string :=
  omap (λ e, match e with
             | ECall (VObj c' _) meth _ _ => if bool_decide (c' = c) then Some meth else None
             | _ => None
             end) t.

(** ** In-repository computation *)

Definition arithmetic_ops : list string := ["+"; "-"; "*"; "/"; "neg"; "log"; "log10"; "exp"].
Definition builtin_ops : list string :=
  ["float"; "len"; "[]"; "=="; "range"; "str.+"; "str.format"; "append"].

Definition is_arithmetic (e : event) : bool :=
  match e with EHost op _ => bool_decide (op ∈ arithmetic_ops) | _ => false end.

(** A running total: a literal to which literals are added, one after the
    other, as by [co2_0 += co2_delta] in a loop. *)
Fixpoint is_total (v : val) : bool :=
  match v with
  | VNum _ => true
  | VOp "+" [a; VNum _] => is_total a
  | _ => false
  end.

(** The number of arithmetic operations nested in a value.  What the
    library, numpy or pandas returned is given: it counts for nothing,
    whatever was passed to the call that returned it. *)
Fixpoint nesting (v : val) : nat :=
  match v with
  | VOp op args =>
      (if bool_decide (op ∈ arithmetic_ops) then 1 else 0) + foldr max 0 (map nesting args)
  | _ => 0
  end%nat.

(** A scalar formula: arithmetic and [float] over literals and over values
    that the library, numpy or pandas returned. *)
Fixpoint is_formula (v : val) : bool :=
  match v with
  | VNum _ | VRes _ _ _ | VApp _ _ => true
  | VOp op args => bool_decide (op ∈ "float" :: arithmetic_ops) && forallb is_formula args
  | _ => false
  end.

(** The arithmetic that assembling calls takes: a running total, or a
    scalar formula of at most three nested operations. *)
Definition is_glue (v : val) : bool :=
  is_total v || (is_formula v && (nesting v <=? 3)%nat).

(** Of the operations of Python itself, a notebook uses the built-ins
    listed and arithmetic that is glue; every other event is a call into the
    library, a print, a table or plotting call, or an import. *)
Definition glue_step (_ : unit) (e : event) : option unit :=
  match e with
  | EHost op args =>
      if bool_decide (op ∈ arithmetic_ops) then (if is_glue (VOp op args) then Some tt else None)
      else if bool_decide (op ∈ builtin_ops) then Some tt else None
  | _ => Some tt
  end.

Definition only_assembles_calls (t : list event) : bool := accepts glue_step tt t.

(** ** Events outside the folded loops *)

Definition is_folded (e : event) : bool :=
  match e with ELoop _ _ | EIf _ _ => true | _ => false end.

(** The events of a script that are not inside a loop over a library
    collection, nor under a condition on library data. *)
Definition unfolded (t : list event) : list event := filter (λ e, is_folded e = false) t.

Section Quiet.
Variable p : event → bool.

Definition quiet_step (_ : unit) (e : event) : option unit :=
  if p e then None else Some tt.

(** No event selected by [p] happens inside a folded part of [t]. *)
Definition quiet (t : list event) : bool :=
  forallb (λ e, match e with
                | ELoop _ body => accepts_folded quiet_step tt body
                | EIf _ body => accepts_folded quiet_step tt body
                | _ => true
                end) t.

End Quiet.

(** A library in which every solve succeeds, every collection has two
    elements and every condition holds; and one in which every solve
    fails. *)
Definition lib0 : library := Library (λ _, true) (λ _ _, 2%nat) (λ _ _, true).
Definition lib_failing : library := Library (λ _, false) (λ _ _, 2%nat) (λ _ _, true).

(** Scripts that break what the monitors check. *)

Open Scope script_scope.

Definition state_from_database : py unit :=
  db ← PhreeqcDatabase ["phreeqc.dat"];
  state ← ChemicalState [db];
  mret tt.

Definition value_for_undeclared_input : py unit :=
  db ← PhreeqcDatabase ["phreeqc.dat"];
  gases ← GaseousPhase ["CO2(g)"];
  system ← ChemicalSystem [db; gases];
  specs ← EquilibriumSpecs [system];
  call specs "temperature" [];;
  conditions ← EquilibriumConditions [specs];
  call conditions "pressure" [1.0; "bar"];;
  mret tt.

Definition two_conditions_for_one_specs : py unit :=
  db ← PhreeqcDatabase ["phreeqc.dat"];
  gases ← GaseousPhase ["CO2(g)"];
  system ← ChemicalSystem [db; gases];
  specs ← EquilibriumSpecs [system];
  conditions ← EquilibriumConditions [specs];
  conditions ← EquilibriumConditions [specs];
  mret tt.

Definition activity_model_after_system : py unit :=
  db ← PhreeqcDatabase ["phreeqc.dat"];
  gases ← GaseousPhase ["CO2(g)"];
  system ← ChemicalSystem [db; gases];
  call gases "setActivityModel" [ActivityModelPengRobinson []];;
  mret tt.

(** Five rounds of Newton's iteration for the square root of 2, written in
    the notebook: [x = x - (x*x - 2) / (2*x)]. *)
Definition newton_in_repo : py unit :=
  x ← for_acc (range 5) 1.0 (λ _ x,
         host "-" [x; host "/" [host "-" [host "*" [x; x]; 2.0]; host "*" [2.0; x]]]);
  print [x].

(** The same by the rule [x = (x + 2/x) / 2], and a loop that halves a
    value. *)
Definition heron_in_repo : py unit :=
  x ← for_acc (range 5) 1.0 (λ _ x, host "/" [host "+" [x; host "/" [2.0; x]]; 2.0]);
  print [x].

Definition halving_in_repo : py unit :=
  x ← for_acc (range 5) 1.0 (λ _ x, host "*" [x; 0.5]);
  print [x].

(** A comparison of numbers, as a search or a convergence test needs. *)
Definition comparison_in_repo : py unit :=
  b ← host "<" [1.0; 2.0];
  print [b].

(** A flag that is read and reported the wrong way round. *)
Definition failure_reported_as_success : py unit :=
  db ← PhreeqcDatabase ["phreeqc.dat"];
  gases ← GaseousPhase ["CO2(g)"];
  system ← ChemicalSystem [db; gases];
  state ← ChemicalState [system];
  solver ← EquilibriumSolver [system];
  result ← solve solver [state];
  ok ← optima_succeeded result;
  print [if_else "Computation has failed!" ok "Successful computation!"].

Definition retry_on_failure : py unit :=
  db ← PhreeqcDatabase ["phreeqc.dat"];
  gases ← GaseousPhase ["CO2(g)"];
  system ← ChemicalSystem [db; gases];
  state ← ChemicalState [system];
  solver ← EquilibriumSolver [system];
  result ← solve solver [state];
  ok ← optima_succeeded result;
  match ok with
  | VBool true => mret tt
  | _ => solve solver [state];; mret tt
  end.

Close Scope script_scope.

(** The notebook with a calculation that returns no result object. *)
Definition flagless_notebooks : list string := ["defining-materials"].

(** The notebooks that read the flag of a solver result. *)
Definition flag_reading_notebooks : list string :=
  ["equilibrium-with-fixed-fugacity"; "equilibrium-with-fixed-ph-charge-balance";
   "equilibrium-basics"].

(** * Further checks on what the notebooks do *)

(** ** Quantities and their units *)

Definition temperature_setters : list string :=
  ["temperature"; "setTemperature"; "setLowerBoundTemperature"; "setUpperBoundTemperature"].
Definition pressure_setters : list string :=
  ["pressure"; "setPressure"; "setLowerBoundPressure"; "setUpperBoundPressure"].
Definition amount_setters : list string := ["set"; "add"].

Definition temperature_units : list string := ["celsius"].
Definition pressure_units : list string := ["bar"; "atm"; "MPa"; "GPa"].
Definition amount_units : list string := ["kg"; "g"; "mg"; "mol"; "mmol"; "umol"].

(** [meth(value, unit)] with a unit of the list. *)
Definition with_unit (units : list string) (args : list val) : bool :=
  match args with
  | [_; VStr u] => bool_decide (u ∈ units)
  | _ => false
  end.

(** [meth(name, value, unit)] with a unit of amount. *)
Definition amount_with_unit (args : list val) : bool :=
  match args with
  | [_; _; VStr u] => bool_decide (u ∈ amount_units)
  | _ => false
  end.

(** A temperature or a pressure given to a state or to conditions (as a
    value or as a bound), an amount set in or added to a state or a
    material, and the temperature and pressure at which a material is
    equilibrated come with their unit.  Without arguments, [temperature]
    and [pressure] read the value and are not concerned. *)
Definition quantity_has_unit (c : cls) (meth : string) (args : list val) : bool :=
  if bool_decide (c = CChemicalState ∨ c = CEquilibriumConditions) then
    if bool_decide (meth ∈ temperature_setters) then with_unit temperature_units args
    else if bool_decide (meth ∈ pressure_setters) then with_unit pressure_units args
    else if bool_decide (c = CChemicalState ∧ meth ∈ amount_setters) then amount_with_unit args
    else true
  else if bool_decide (c = CMaterial) then
    if bool_decide (meth = "add") then amount_with_unit args
    else if bool_decide (meth = "equilibrate") then
      match args with
      | [_; VStr tu; _; VStr pu] =>
          bool_decide (tu ∈ temperature_units) && bool_decide (pu ∈ pressure_units)
      | _ => false
      end
    else true
  else true.

Definition units_step (_ : unit) (e : event) : option unit :=
  match e with
  | ECall (VObj c _) meth (a :: args) _ =>
      if quantity_has_unit c meth (a :: args) then Some tt else None
  | _ => Some tt
  end.

Definition quantities_have_units (t : list event) : bool := accepts units_step tt t.

(** ** A specification in use *)

(** The monitor state is the set of specifications a conditions object or a
    solver has been constructed from; nothing is called on these any
    more. *)
Definition specs_in_use_step (used : gset nat) (e : event) : option (gset nat) :=
  match e with
  | ENew _ _ [VObj CEquilibriumSpecs sp] _ => Some ({[sp]} ∪ used)
  | ECall recv _ _ _ =>
      match root recv with
      | Some (CEquilibriumSpecs, sp) => if bool_decide (sp ∈ used) then None else Some used
      | _ => Some used
      end
  | _ => Some used
  end.

Definition specs_complete_before_use (t : list event) : bool := accepts specs_in_use_step ∅ t.

(** ** Values for the declared inputs *)

(** The monitor state: the inputs each specification has declared, the
    specification of each conditions object, and the inputs each conditions
    object has been given a value for. *)
Record inputs := Inputs {
  inputs_declared : gmap nat (gset string);
  inputs_specs : gmap nat nat;
  inputs_given : gmap nat (gset string)
}.

Global Instance inputs_eq_dec : EqDecision inputs.
Proof. solve_decision. Defined.

(** A solve that takes conditions finds in them a value for every input
    their specification has declared. *)
Definition inputs_step (s : inputs) (e : event) : option inputs :=
  match e with
  | ENew CEquilibriumSpecs _ _ (VObj _ sp) =>
      Some (Inputs (<[sp := ∅]> (inputs_declared s)) (inputs_specs s) (inputs_given s))
  | ECall (VObj CEquilibriumSpecs sp) meth args _ =>
      match declares meth args with
      | Some x =>
          Some (Inputs (alter (λ d, {[x]} ∪ d) sp (inputs_declared s))
                       (inputs_specs s) (inputs_given s))
      | None => Some s
      end
  | ENew CEquilibriumConditions _ [VObj CEquilibriumSpecs sp] (VObj _ c) =>
      Some (Inputs (inputs_declared s) (<[c := sp]> (inputs_specs s)) (<[c := ∅]> (inputs_given s)))
  | ECall (VObj CEquilibriumConditions c) meth args _ =>
      match sets_value meth args with
      | Some x =>
          Some (Inputs (inputs_declared s) (inputs_specs s)
                       (alter (λ d, {[x]} ∪ d) c (inputs_given s)))
      | None => Some s
      end
  | ECall (VObj CEquilibriumSolver _) "solve" [_; VObj CEquilibriumConditions c] _ =>
      match inputs_specs s !! c with
      | Some sp =>
          if bool_decide (default ∅ (inputs_declared s !! sp) ⊆ default ∅ (inputs_given s !! c))
          then Some s else None
      | None => None
      end
  | _ => Some s
  end.

Definition declared_inputs_have_values (t : list event) : bool :=
  accepts inputs_step (Inputs ∅ ∅ ∅) t.

(** ** One chemical system per calculation *)

(** The monitor state maps an object to the chemical system it was
    constructed from, directly or through the object it was constructed
    from.  A solve takes a solver, a state and conditions of one system; a
    property object is updated with a state of its system, which for the
    property object a state carries is the system of that state. *)
Definition same_system_step (s : gmap nat nat) (e : event) : option (gmap nat nat) :=
  match e with
  | ENew _ _ [VObj CChemicalSystem sy] (VObj _ o) => Some (<[o := sy]> s)
  | ENew _ _ [VObj _ x] (VObj _ o) =>
      match s !! x with Some sy => Some (<[o := sy]> s) | None => Some s end
  | ECall (VObj CEquilibriumSolver sv) "solve" (VObj CChemicalState st :: rest) _ =>
      if bool_decide (is_Some (s !! sv) ∧ s !! st = s !! sv) &&
         forallb (λ v, match v with
                       | VObj _ c => bool_decide (s !! c = s !! sv)
                       | _ => true
                       end) rest
      then Some s else None
  | ECall recv "update" args _ =>
      match props_key recv, args with
      | Some k, [VObj CChemicalState st] =>
          let o := match k with inl p => p | inr st0 => st0 end in
          if bool_decide (is_Some (s !! o) ∧ s !! st = s !! o) then Some s else None
      | Some _, _ => None
      | None, _ => Some s
      end
  | _ => Some s
  end.

Definition one_system_per_calculation (t : list event) : bool := accepts same_system_step ∅ t.

(** ** Properties in step with their state *)

(** The methods that change a state when they are given arguments; the
    surface area of an interface is set by [surfaceArea] with four
    arguments, and read with two. *)
Definition state_setters : list string :=
  ["set"; "add"; "setTemperature"; "setPressure"; "temperature"; "pressure";
   "scaleFluidMass"; "scaleSolidMass"; "scaleVolume"].

(** The state an event changes. *)
Definition changed_state (e : event) : option nat :=
  match e with
  | ECall (VObj CEquilibriumSolver _) "solve" (VObj CChemicalState st :: _) _ => Some st
  | EFun "equilibrate" (VObj CChemicalState st :: _) _ => Some st
  | ECall (VObj CChemicalState st) meth (a :: args) _ =>
      if bool_decide (meth ∈ state_setters) || bool_decide (meth = "surfaceArea" ∧ length args = 3%nat)
      then Some st else None
  | _ => None
  end.

Definition props_among (args : list val) : list (nat + nat) := omap props_key args.

(** The property objects an event reads: the one at the root of the value a
    method is called on ([update] on the property object itself apart), and
    those passed as arguments. *)
Definition props_read (e : event) : list (nat + nat) :=
  match e with
  | ECall recv meth args _ =>
      if bool_decide (meth = "update") && bool_decide (is_Some (props_key recv)) then []
      else match props_root recv with Some k => [k] | None => [] end ++ props_among args
  | ENew _ _ args _ | EFun _ args _ | EHost _ args | EPrint args | EExt _ _ args =>
      props_among args
  | _ => []
  end.

(** The state an event solves. *)
Definition solved_state (e : event) : option nat :=
  match e with
  | ECall (VObj CEquilibriumSolver _) "solve" (VObj CChemicalState st :: _) _ => Some st
  | EFun "equilibrate" (VObj CChemicalState st :: _) _ => Some st
  | _ => None
  end.

(** The monitor state maps a property object to the state it was computed
    from, as long as that state has not changed since.  A property object
    is computed when it is constructed from a state and when it is updated
    with one; the one a state carries is computed at the end of a solve of
    that state.  Only property objects in step with their state are read. *)
Definition props_step (s : gmap (nat + nat) nat) (e : event) : option (gmap (nat + nat) nat) :=
  if forallb (λ k, bool_decide (is_Some (s !! k))) (props_read e) then
    match e with
    | ENew CProps _ [VObj CChemicalState st] (VObj _ p) => Some (<[inl p := st]> s)
    | ECall recv "update" [VObj CChemicalState st] _ =>
        match props_key recv with
        | Some k => Some (<[k := st]> s)
        | None => Some s
        end
    | _ =>
        match changed_state e with
        | Some st =>
            let s' := filter (λ kv : (nat + nat) * nat, kv.2 ≠ st) s in
            match solved_state e with
            | Some _ => Some (<[inr st := st]> s')
            | None => Some s'
            end
        | None => Some s
        end
    end
  else None.

Definition props_read_in_step (t : list event) : bool := accepts props_step ∅ t.

(** The state a property object is updated with is the one solved last;
    this holds as well for the property object a state carries. *)
Definition update_step (last : option nat) (e : event) : option (option nat) :=
  match e with
  | ECall (VObj CEquilibriumSolver _) "solve" (VObj _ st :: _) _ => Some (Some st)
  | EFun "equilibrate" (VObj _ st :: _) _ => Some (Some st)
  | ECall recv "update" args _ =>
      match props_key recv, args with
      | Some _, [VObj CChemicalState st] =>
          if bool_decide (last = Some st) then Some last else None
      | Some _, _ => None
      | None, _ => Some last
      end
  | _ => Some last
  end.

Definition props_updated_after_solve (t : list event) : bool := accepts update_step None t.

(** ** The state given to a solve *)

(** Which of temperature and pressure a method fixes, by a value or by a
    bound. *)
Definition fixes (meth : string) : option string :=
  if bool_decide (meth ∈ temperature_setters) then Some "T"
  else if bool_decide (meth ∈ pressure_setters) then Some "P"
  else None.

(** The monitor state tells, for each state and each conditions object,
    which of temperature and pressure the notebook has fixed in it.  A
    solve finds both in the state or in the conditions; a solve with
    conditions leaves both determined in the state. *)
Definition fixed_step (s : gmap nat (gset string)) (e : event) : option (gmap nat (gset string)) :=
  let fixed o := default ∅ (s !! o) in
  match e with
  | ECall (VObj CEquilibriumSolver _) "solve" args _ =>
      match args with
      | [VObj _ st] =>
          if bool_decide ({["T"; "P"]} ⊆ fixed st) then Some s else None
      | [VObj _ st; VObj _ cd] =>
          if bool_decide ({["T"; "P"]} ⊆ fixed st ∪ fixed cd)
          then Some (<[st := {["T"; "P"]}]> s) else None
      | _ => None
      end
  | EFun "equilibrate" args _ =>
      match args with
      | [VObj _ st] => if bool_decide ({["T"; "P"]} ⊆ fixed st) then Some s else None
      | _ => None
      end
  | ECall (VObj c o) meth (_ :: _) _ =>
      if bool_decide (c = CChemicalState ∨ c = CEquilibriumConditions) then
        match fixes meth with
        | Some x => Some (<[o := {[x]} ∪ fixed o]> s)
        | None => Some s
        end
      else Some s
  | _ => Some s
  end.

Definition temperature_and_pressure_fixed (t : list event) : bool := accepts fixed_step ∅ t.

(** The monitor state is the set of states that were given an amount of some
    species; only these are solved. *)
Definition filled_step (s : gset nat) (e : event) : option (gset nat) :=
  match e with
  | ECall (VObj CChemicalState st) meth (_ :: _) _ =>
      if bool_decide (meth ∈ amount_setters) then Some ({[st]} ∪ s) else Some s
  | ECall (VObj CEquilibriumSolver _) "solve" (VObj _ st :: _) _ =>
      if bool_decide (st ∈ s) then Some s else None
  | EFun "equilibrate" (VObj _ st :: _) _ =>
      if bool_decide (st ∈ s) then Some s else None
  | _ => Some s
  end.

Definition solved_states_have_content (t : list event) : bool := accepts filled_step ∅ t.

(** ** Databases *)

(** The methods the notebooks call on a database, or on what they obtained
    from it. *)
Definition database_accessors : list string :=
  ["species"; "elements"; "get"; "getWithName"; "withElements"; "speciesWithAggregateState";
   "reaction"; "props"; "name"; "formula"; "symbol"; "str"; "charge"; "molarMass";
   "aggregateState"; "G0"; "H0"; "lgK"].

(** A database is only queried, and given to a chemical system as its first
    argument. *)
Definition database_step (_ : unit) (e : event) : option unit :=
  match e with
  | ENew c _ args _ =>
      if bool_decide (c = CChemicalSystem)
      then if forallb (λ v, negb (is_obj CDatabase v)) (tail args) then Some tt else None
      else if existsb (is_obj CDatabase) args then None else Some tt
  | ECall recv meth args _ =>
      if existsb (is_obj CDatabase) args then None else
      match root recv with
      | Some (CDatabase, _) => if bool_decide (meth ∈ database_accessors) then Some tt else None
      | _ => Some tt
      end
  | EFun _ args _ | EExt _ _ args => if existsb (is_obj CDatabase) args then None else Some tt
  | _ => Some tt
  end.

Definition databases_only_queried (t : list event) : bool := accepts database_step tt t.

(** ** Constraint equations *)

(** The monitor state: the attributes assigned to each constraint equation,
    and the constraint equations already added to a specification.  A
    constraint is added once, with its [id] and its [fn] assigned, and is
    not assigned to afterwards. *)
Definition constraint_step (s : gmap nat (gset string) * gset nat) (e : event)
    : option (gmap nat (gset string) * gset nat) :=
  match e with
  | ENew CConstraintEquation _ _ (VObj _ c) => Some (<[c := ∅]> s.1, s.2)
  | ECall (VObj CConstraintEquation c) "__setattr__" (VStr a :: _) _ =>
      if bool_decide (c ∈ s.2) then None else Some (alter (λ d, {[a]} ∪ d) c s.1, s.2)
  | ECall (VObj CEquilibriumSpecs _) "addConstraint" [VObj CConstraintEquation c] _ =>
      if bool_decide (s.1 !! c = Some {["id"; "fn"]} ∧ c ∉ s.2)
      then Some (s.1, {[c]} ∪ s.2) else None
  | ECall _ "addConstraint" _ _ => None
  | _ => Some s
  end.

(** At the end of the run every constraint equation that was constructed
    has been added. *)
Definition constraints_complete_when_added (t : list event) : bool :=
  match monitor constraint_step (∅, ∅) t with
  | Some s => bool_decide (dom s.1 = s.2)
  | None => false
  end.

Definition constraints_complete_when_added_folded (t : list event) : bool :=
  match monitor_folded constraint_step (∅, ∅) t with
  | Some s => bool_decide (dom s.1 = s.2)
  | None => false
  end.

(** ** Imports *)

Definition package (module : string) : string :=
  if String.prefix "bokeh" module then "bokeh" else module.

(** The package an event needs: the library for every constructor, method
    and function of it, the package of a table, grid or plotting call, and
    [math] for [log], [log10] and [exp]. *)
Definition needs (e : event) : option string :=
  match e with
  | ENew _ _ _ _ | ECall _ _ _ _ | EFun _ _ _ => Some "reaktoro"
  | EExt pkg _ _ => Some pkg
  | EHost op _ => if bool_decide (op ∈ ["log"; "log10"; "exp"]) then Some "math" else None
  | _ => None
  end.

(** The monitor state is the set of packages imported so far. *)
Definition imports_step (s : gset string) (e : event) : option (gset string) :=
  match e with
  | EImport m => Some ({[package m]} ∪ s)
  | _ =>
      match needs e with
      | Some p => if bool_decide (p ∈ s) then Some s else None
      | None => Some s
      end
  end.

Definition imported_before_use (t : list event) : bool := accepts imports_step ∅ t.

(** ** Rows of the result tables *)

Definition is_solve (e : event) : bool :=
  match e with
  | ECall (VObj CEquilibriumSolver _) "solve" _ _ => true
  | EFun "equilibrate" _ _ => true
  | _ => false
  end.

(** [df.loc[len(d)] = row]: the table, the table whose length is the index,
    and the row. *)
Definition row_written (e : event) : option (val * val * val) :=
  match e with
  | EExt "pandas" "loc.__setitem__" [df; VOp "len" [d]; row] => Some (df, d, row)
  | _ => None
  end.

Definition is_row (e : event) : bool :=
  match e with EExt "pandas" "loc.__setitem__" _ => true | _ => false end.

(** The monitor state tells whether a solve has happened since the last
    row was written: every row records a new calculation. *)
Definition rows_step (solved : bool) (e : event) : option bool :=
  if is_solve e then Some true
  else if is_row e then (if solved then Some false else None)
  else Some solved.

Definition rows_record_new_solves (t : list event) : bool := accepts rows_step false t.

(** A row written at an index that is not the length of the table
    itself. *)
Definition is_foreign_row (e : event) : bool :=
  match row_written e with
  | Some (df, d, _) => negb (bool_decide (df = d))
  | None => is_row e
  end.

Arguments is_foreign_row : simpl never.

(** ** What depends on the library's collections *)

(** An event that reads, computes or prints: a method call on a system, a
    database, a state or a property object (or on what was obtained from
    one) that returns no new object and changes nothing, a Python built-in
    or arithmetic, a print.  Everything else is an effect: constructing an
    object, changing one, solving, importing, a table or plotting call. *)
Definition is_effect (e : event) : bool :=
  match e with
  | EPrint _ | EHost _ _ => false
  | ECall recv meth args ret =>
      match ret with
      | VObj _ _ => true
      | _ =>
          match root recv with
          | Some (CChemicalSystem, _) | Some (CDatabase, _) => false
          | Some (CProps, _) => bool_decide (meth = "update")
          | Some (CChemicalState, _) => bool_decide (is_Some (changed_state e))
          | _ => true
          end
      end
  | _ => true
  end.

Arguments is_effect : simpl never.

(** The solves of a run: the solver and the arguments of each. *)
Definition solves (t : list event) : list (val * list val) :=
  omap (λ e, match e with ECall sv "solve" args _ => Some (sv, args) | _ => None end) t.

(** The values a method is called on, in order. *)
Definition receivers (meth : string) (t : list event) : list val :=
  omap (λ e, match e with
             | ECall recv m _ _ => if bool_decide (m = meth) then Some recv else None
             | _ => None
             end) t.

(** Scripts that break what these monitors check. *)

Open Scope script_scope.

Definition temperature_without_unit : py unit :=
  db ← PhreeqcDatabase ["phreeqc.dat"];
  gases ← GaseousPhase ["CO2(g)"];
  system ← ChemicalSystem [db; gases];
  state ← ChemicalState [system];
  call state "temperature" [298.15];;
  mret tt.

Definition input_declared_after_solver : py unit :=
  db ← PhreeqcDatabase ["phreeqc.dat"];
  gases ← GaseousPhase ["CO2(g)"];
  system ← ChemicalSystem [db; gases];
  specs ← EquilibriumSpecs [system];
  call specs "temperature" [];;
  solver ← EquilibriumSolver [specs];
  call specs "pressure" [];;
  mret tt.

Definition input_without_value : py unit :=
  db ← PhreeqcDatabase ["phreeqc.dat"];
  gases ← GaseousPhase ["CO2(g)"];
  system ← ChemicalSystem [db; gases];
  state ← ChemicalState [system];
  call state "set" ["CO2(g)"; 1.0; "mol"];;
  specs ← EquilibriumSpecs [system];
  call specs "temperature" [];;
  call specs "pressure" [];;
  solver ← EquilibriumSolver [specs];
  conditions ← EquilibriumConditions [specs];
  call conditions "temperature" [25.0; "celsius"];;
  solve solver [state; conditions];;
  mret tt.

Definition state_of_another_system : py unit :=
  db ← PhreeqcDatabase ["phreeqc.dat"];
  gases ← GaseousPhase ["CO2(g)"];
  system ← ChemicalSystem [db; gases];
  solution ← AqueousPhase ["H2O H+ OH-"];
  system2 ← ChemicalSystem [db; solution];
  state ← ChemicalState [system2];
  solver ← EquilibriumSolver [system];
  solve solver [state];;
  mret tt.

Definition props_read_after_change : py unit :=
  db ← PhreeqcDatabase ["phreeqc.dat"];
  solution ← AqueousPhase ["H2O H+ OH-"];
  system ← ChemicalSystem [db; solution];
  state ← ChemicalState [system];
  call state "set" ["H2O"; 1.0; "kg"];;
  aprops ← AqueousProps [state];
  call state "add" ["H+"; 1.0; "mmol"];;
  print [call aprops "pH" []].

Definition props_updated_with_other_state : py unit :=
  db ← PhreeqcDatabase ["phreeqc.dat"];
  solution ← AqueousPhase ["H2O H+ OH-"];
  system ← ChemicalSystem [db; solution];
  state ← ChemicalState [system];
  other ← ChemicalState [system];
  aprops ← AqueousProps [system];
  equilibrate [state];;
  call aprops "update" [other];;
  mret tt.

Definition solve_at_default_temperature : py unit :=
  db ← PhreeqcDatabase ["phreeqc.dat"];
  solution ← AqueousPhase ["H2O H+ OH-"];
  system ← ChemicalSystem [db; solution];
  state ← ChemicalState [system];
  call state "pressure" [1.0; "bar"];;
  call state "set" ["H2O"; 1.0; "kg"];;
  equilibrate [state];;
  mret tt.

Definition solve_of_empty_state : py unit :=
  db ← PhreeqcDatabase ["phreeqc.dat"];
  solution ← AqueousPhase ["H2O H+ OH-"];
  system ← ChemicalSystem [db; solution];
  state ← ChemicalState [system];
  call state "temperature" [25.0; "celsius"];;
  call state "pressure" [1.0; "bar"];;
  equilibrate [state];;
  mret tt.

Definition database_extended : py unit :=
  db ← PhreeqcDatabase ["phreeqc.dat"];
  call db "addSpecies" [call (call db "species" []) "get" ["H2O"]];;
  mret tt.

Definition constraint_without_residual : py unit :=
  db ← PhreeqcDatabase ["phreeqc.dat"];
  gases ← GaseousPhase ["CO2(g)"];
  system ← ChemicalSystem [db; gases];
  specs ← EquilibriumSpecs [system];
  constraint ← ConstraintEquation [];
  setattr constraint "id" "VolumeConstraint";;
  call specs "addConstraint" [constraint];;
  mret tt.

Definition constraint_never_added : py unit :=
  db ← PhreeqcDatabase ["phreeqc.dat"];
  gases ← GaseousPhase ["CO2(g)"];
  system ← ChemicalSystem [db; gases];
  specs ← EquilibriumSpecs [system];
  constraint ← ConstraintEquation [];
  setattr constraint "id" "VolumeConstraint";;
  setattr constraint "fn" (VLam "volumeConstraint_fn");;
  mret tt.

(** The property object that a state carries, read after the state has
    changed, and updated with a state of another system. *)
Definition carried_props_read_after_change : py unit :=
  db ← PhreeqcDatabase ["phreeqc.dat"];
  solution ← AqueousPhase ["H2O H+ OH-"];
  system ← ChemicalSystem [db; solution];
  state ← ChemicalState [system];
  call state "set" ["H2O"; 1.0; "kg"];;
  equilibrate [state];;
  props ← call state "props" [];
  call state "add" ["H+"; 1.0; "mmol"];;
  print [call props "temperature" []].

Definition carried_props_updated_with_other_state : py unit :=
  db ← PhreeqcDatabase ["phreeqc.dat"];
  solution ← AqueousPhase ["H2O H+ OH-"];
  system ← ChemicalSystem [db; solution];
  gases ← GaseousPhase ["CO2(g)"];
  system2 ← ChemicalSystem [db; gases];
  state ← ChemicalState [system];
  other ← ChemicalState [system2];
  equilibrate [state];;
  props ← call state "props" [];
  call props "update" [other];;
  mret tt.

(** A row of one table written at the length of another table with the
    same columns. *)
Definition row_at_length_of_twin_table : py unit :=
  import "pandas";;
  df_water ← DataFrame [kw "columns" (list_ ["T"; "pH"])];
  df_rainwater ← DataFrame [kw "columns" (list_ ["T"; "pH"])];
  loc_setitem df_rainwater df_water [25.0; 7.0].

Definition use_before_import : py unit :=
  db ← PhreeqcDatabase ["phreeqc.dat"];
  import "reaktoro".

Definition row_written_twice : py unit :=
  import "reaktoro";; import "pandas";;
  db ← PhreeqcDatabase ["phreeqc.dat"];
  solution ← AqueousPhase ["H2O H+ OH-"];
  system ← ChemicalSystem [db; solution];
  state ← ChemicalState [system];
  equilibrate [state];;
  df ← DataFrame [kw "columns" (list_ ["n"])];
  loc_setitem df df [call state "speciesAmount" ["H+"]];;
  loc_setitem df df [call state "speciesAmount" ["H+"]].

Close Scope script_scope.

(** The notebook with a row written at the length of another table. *)
Definition foreign_row_notebooks : list string := ["ph-dependence-on-contaminants-in-water"].

(** * Facts about traces and monitors *)

(** Induction over events that also reaches the body of a loop. *)
Section EventInd.
Variable P : event → Prop.
Hypothesis Hnew : ∀ c ctor args ret, P (ENew c ctor args ret).
Hypothesis Hcall : ∀ recv meth args ret, P (ECall recv meth args ret).
Hypothesis Hfun : ∀ f args ret, P (EFun f args ret).
Hypothesis Hhost : ∀ op args, P (EHost op args).
Hypothesis Hprint : ∀ args, P (EPrint args).
Hypothesis Hext : ∀ pkg f args, P (EExt pkg f args).
Hypothesis Himport : ∀ m, P (EImport m).
Hypothesis Hloop : ∀ coll body, Forall P body → P (ELoop coll body).
Hypothesis Hif : ∀ cond body, Forall P body → P (EIf cond body).

Fixpoint event_nested_ind (e : event) : P e :=
  match e with
  | ENew c ctor args ret => Hnew c ctor args ret
  | ECall recv meth args ret => Hcall recv meth args ret
  | EFun f args ret => Hfun f args ret
  | EHost op args => Hhost op args
  | EPrint args => Hprint args
  | EExt pkg f args => Hext pkg f args
  | EImport m => Himport m
  | ELoop coll body =>
      Hloop coll body
        ((fix go (l : list event) : Forall P l :=
            match l with
            | [] => @List.Forall_nil _ P
            | e' :: l' => @List.Forall_cons _ P e' l' (event_nested_ind e') (go l')
            end) body)
  | EIf cond body =>
      Hif cond body
        ((fix go (l : list event) : Forall P l :=
            match l with
            | [] => @List.Forall_nil _ P
            | e' :: l' => @List.Forall_cons _ P e' l' (event_nested_ind e') (go l')
            end) body)
  end.
End EventInd.

Section MonitorFacts.
Context {S : Type} `{EqDecision S}.
Variable step : S → event → option S.

Lemma monitor_app s t1 t2 :
  monitor step s (t1 ++ t2) =
  match monitor step s t1 with Some s1 => monitor step s1 t2 | None => None end.
Proof.
  revert s. induction t1 as [|e t1 IH]; intros s; simpl; [done|].
  destruct (step s e); [apply IH | done].
Qed.

(** A body that leaves the state as it found it can be repeated, whatever
    each repetition unrolls to. *)
Lemma monitor_iterations s (body : nat → list event) (l : list nat) :
  (∀ i, monitor step s (body i) = Some s) → monitor step s (flat_map body l) = Some s.
Proof.
  intros Hb. induction l as [|i l IH]; simpl; [done|].
  by rewrite monitor_app, Hb.
Qed.

Lemma monitor_folded_event_sound lib e :
  ∀ pt s s', monitor_folded_event step s e = Some s' →
             monitor step s (unroll_event lib pt e) = Some s'.
Proof.
  assert (Hbody : ∀ body,
    Forall (λ e, ∀ pt s s', monitor_folded_event step s e = Some s' →
                            monitor step s (unroll_event lib pt e) = Some s') body →
    ∀ pt s s', monitor_folded step s body = Some s' →
               monitor step s (flat_map (unroll_event lib pt) body) = Some s').
  { intros body Hall. induction Hall as [|e' l' He' _ IH]; intros pt s s' H; simpl in *.
    - done.
    - destruct (monitor_folded_event step s e') as [s1|] eqn:E; [|done].
      rewrite monitor_app, (He' _ _ _ E). by apply IH. }
  induction e as [| | | | | | |coll body IH|cond body IH] using event_nested_ind;
    intros pt s s' H; simpl in H |- *;
    try (by destruct (step s _)).
  - change (match monitor_folded step s body with
            | Some s'0 => if decide (s'0 = s) then Some s else None
            | None => None end = Some s') in H.
    destruct (monitor_folded step s body) as [s1|] eqn:E; [|done].
    destruct (decide (s1 = s)) as [->|]; [|done]. injection H as <-.
    apply monitor_iterations. intros i. by apply Hbody.
  - change (match monitor_folded step s body with
            | Some s'0 => if decide (s'0 = s) then Some s else None
            | None => None end = Some s') in H.
    destruct (monitor_folded step s body) as [s1|] eqn:E; [|done].
    destruct (decide (s1 = s)) as [->|]; [|done]. injection H as <-.
    destruct (truth lib pt cond); [by apply Hbody | done].
Qed.

Lemma monitor_folded_sound lib pt t :
  ∀ s s', monitor_folded step s t = Some s' → monitor step s (unroll lib pt t) = Some s'.
Proof.
  unfold unroll. induction t as [|e t IH]; intros s s' H; simpl in *; [done|].
  destruct (monitor_folded_event step s e) as [s1|] eqn:E; [|done].
  rewrite monitor_app, (monitor_folded_event_sound lib e _ _ _ E). by apply IH.
Qed.

(** A check passed on the folded events is passed on the trace, for every
    library. *)
Lemma accepts_folded_sound lib pt s t :
  accepts_folded step s t = true → accepts step s (unroll lib pt t) = true.
Proof.
  unfold accepts_folded, accepts. destruct (monitor_folded step s t) as [s'|] eqn:E; [|done].
  by rewrite (monitor_folded_sound lib pt t _ _ E).
Qed.
End MonitorFacts.

Lemma unroll_event_plain lib pt e : is_folded e = false → unroll_event lib pt e = [e].
Proof. by destruct e. Qed.

Section QuietFacts.
Variable p : event → bool.

Lemma accepts_quiet_filter t :
  accepts (quiet_step p) tt t = true → filter (λ e, p e = true) t = [].
Proof.
  unfold accepts. induction t as [|e t IH]; simpl; [done|].
  unfold quiet_step at 1. destruct (p e) eqn:E; [done|]. intros H.
  rewrite filter_cons_False by (rewrite E; done). exact (IH H).
Qed.

Lemma filter_iterations_nil (body : nat → list event) (l : list nat) :
  (∀ i, filter (λ e, p e = true) (body i) = []) →
  filter (λ e, p e = true) (flat_map body l) = [].
Proof.
  intros Hb. induction l as [|i l IH]; simpl; [done|].
  by rewrite filter_app, Hb, IH.
Qed.

(** What is selected from the trace, when nothing is selected inside the
    folded parts, is what is selected outside of them: it does not depend
    on the library. *)
Lemma filter_unroll lib pt t :
  quiet p t = true →
  filter (λ e, p e = true) (unroll lib pt t) = filter (λ e, p e = true) (unfolded t).
Proof.
  unfold unroll, unfolded, quiet. induction t as [|e t IH]; simpl; [done|].
  intros [He Ht]%andb_true_iff. rewrite filter_app, (IH Ht). clear IH Ht.
  destruct (is_folded e) eqn:Ef.
  - rewrite (filter_cons_False (λ e, is_folded e = false)) by (rewrite Ef; done).
    destruct e as [| | | | | | |coll body|cond body]; try done; simpl.
    + rewrite filter_iterations_nil; [done|]. intros i.
      apply (accepts_folded_sound _ lib (pt ++ [i])) in He.
      by apply accepts_quiet_filter in He.
    + apply (accepts_folded_sound _ lib pt) in He. apply accepts_quiet_filter in He.
      fold (unroll lib pt body). destruct (truth lib pt cond); [by rewrite He | done].
  - rewrite (filter_cons_True (λ e, is_folded e = false)) by done.
    rewrite (unroll_event_plain lib pt e Ef). simpl.
    rewrite !(filter_cons (λ e, p e = true)), filter_nil.
    by destruct (decide (p e = true)).
Qed.
End QuietFacts.

Lemma flat_map_ext_Forall {A B} (f g : A → list B) (l : list A) :
  Forall (λ x, f x = g x) l → flat_map f l = flat_map g l.
Proof. induction 1 as [|x l Hx _ IH]; simpl; [done|]. by rewrite Hx, IH. Qed.

(** The trace depends on the library's collections and conditions only
    through [size] and [truth]. *)
Lemma unroll_event_ext sz tr succ succ' e :
  ∀ pt, unroll_event (Library succ sz tr) pt e = unroll_event (Library succ' sz tr) pt e.
Proof.
  induction e as [| | | | | | |coll body IH|cond body IH] using event_nested_ind;
    intros pt; simpl; try done.
  - apply flat_map_ext_Forall, Forall_forall. intros i _.
    apply flat_map_ext_Forall. eapply Forall_impl; [exact IH|]. intros e He. apply He.
  - destruct (tr pt cond); [|done].
    apply flat_map_ext_Forall. eapply Forall_impl; [exact IH|]. intros e He. apply He.
Qed.

Lemma unroll_ext sz tr succ succ' pt t :
  unroll (Library succ sz tr) pt t = unroll (Library succ' sz tr) pt t.
Proof.
  unfold unroll. apply flat_map_ext_Forall, Forall_forall. intros e _.
  apply unroll_event_ext.
Qed.

Lemma map_flat_map {A B C} (h : B → C) (f : A → list B) (l : list A) :
  map h (flat_map f l) = flat_map (λ x, map h (f x)) l.
Proof. induction l as [|x l IH]; simpl; [done|]. by rewrite map_app, IH. Qed.

Lemma flat_map_map {A B C} (f : B → list C) (h : A → B) (l : list A) :
  flat_map f (map h l) = flat_map (λ x, f (h x)) l.
Proof. induction l as [|x l IH]; simpl; [done|]. by rewrite IH. Qed.

Lemma blank_unroll_event lib e :
  ∀ pt, map blank (unroll_event lib pt e) = unroll_event lib pt (blank e).
Proof.
  induction e as [| | | | | | |coll body IH|cond body IH] using event_nested_ind;
    intros pt; simpl; try done.
  - by destruct (is_flag_read _).
  - by destruct (is_report _).
  - rewrite map_flat_map. apply flat_map_ext_Forall, Forall_forall. intros i _.
    rewrite map_flat_map, flat_map_map. apply flat_map_ext_Forall.
    eapply Forall_impl; [exact IH|]. intros e He. apply He.
  - destruct (truth lib pt cond); [|done].
    rewrite map_flat_map, flat_map_map. apply flat_map_ext_Forall.
    eapply Forall_impl; [exact IH|]. intros e He. apply He.
Qed.

Lemma blank_unroll lib pt t : map blank (unroll lib pt t) = unroll lib pt (map blank t).
Proof.
  unfold unroll. rewrite map_flat_map, flat_map_map.
  apply flat_map_ext_Forall, Forall_forall. intros e _. apply blank_unroll_event.
Qed.

(** What a notebook does does not depend on what the solver reports, as soon
    as its folded events do not, up to what is printed. *)
Lemma blank_trace_ext succ succ' sz tr nb :
  map blank (script_events (Library succ sz tr) nb) =
  map blank (script_events (Library succ' sz tr) nb) →
  map blank (trace (Library succ sz tr) nb) = map blank (trace (Library succ' sz tr) nb).
Proof.
  intros H. unfold trace. rewrite !blank_unroll, H. apply unroll_ext.
Qed.

Lemma length_filter_unroll p lib pt t :
  quiet p t = true →
  length (filter (λ e, p e = true) (unroll lib pt t)) =
  length (filter (λ e, p e = true) (unfolded t)).
Proof. intros H. by rewrite (filter_unroll p lib pt t H). Qed.

(** The obligation at the end of a run, checked on the folded events. *)
Lemma constraints_complete_when_added_sound lib pt t :
  constraints_complete_when_added_folded t = true →
  constraints_complete_when_added (unroll lib pt t) = true.
Proof.
  unfold constraints_complete_when_added_folded, constraints_complete_when_added.
  destruct (monitor_folded constraint_step (∅, ∅) t) as [s|] eqn:E; [|done].
  by rewrite (monitor_folded_sound _ lib pt t _ _ E).
Qed.

(** ** Checking the notebooks *)

(** Deciding a check on the folded events of a notebook: evaluate, and
    where the outcome of a solve enters, consider both outcomes. *)
Ltac case_flags :=
  vm_compute;
  repeat match goal with
         | |- context [?f ?n] =>
             match type of f with nat → bool => destruct (f n); vm_compute end
         end.

Ltac check_notebook :=
  apply accepts_folded_sound; case_flags; reflexivity.

Ltac each_notebook tac :=
  unfold notebooks;
  repeat (apply List.Forall_cons; [cbn beta iota delta [fst snd]; tac|]);
  apply List.Forall_nil.

(** The monitors reject scripts that break what they check. *)

Example state_from_database_rejected :
  dependencies_respected (trace lib0 state_from_database) = false.
Proof. reflexivity. Qed.

Example value_for_undeclared_input_rejected :
  conditions_match_specs (trace lib0 value_for_undeclared_input) = false.
Proof. vm_compute. reflexivity. Qed.

Example two_conditions_for_one_specs_rejected :
  conditions_match_specs (trace lib0 two_conditions_for_one_specs) = false.
Proof. vm_compute. reflexivity. Qed.

Example activity_model_after_system_rejected :
  systems_never_modified (trace lib0 activity_model_after_system) = false.
Proof. vm_compute. reflexivity. Qed.

Example newton_in_repo_rejected :
  only_assembles_calls (trace lib0 newton_in_repo) = false.
Proof. vm_compute. reflexivity. Qed.

Example heron_in_repo_rejected :
  only_assembles_calls (trace lib0 heron_in_repo) = false.
Proof. vm_compute. reflexivity. Qed.

Example halving_in_repo_rejected :
  only_assembles_calls (trace lib0 halving_in_repo) = false.
Proof. vm_compute. reflexivity. Qed.

Example comparison_in_repo_rejected :
  only_assembles_calls (trace lib0 comparison_in_repo) = false.
Proof. vm_compute. reflexivity. Qed.

Example failure_reported_as_success_rejected :
  flags_reported lib0 (trace lib0 failure_reported_as_success) = false ∧
  flags_reported lib_failing (trace lib_failing failure_reported_as_success) = false.
Proof. vm_compute. split; reflexivity. Qed.

Example retry_on_failure_detected :
  map blank (trace lib0 retry_on_failure) ≠ map blank (trace lib_failing retry_on_failure).
Proof. vm_compute. discriminate. Qed.

(** The residual functions of the custom constraints and the [pH] helper
    subtract and negate in the notebook itself. *)
Lemma volumeConstraint_fn_events idxV props w lib n :
  (volumeConstraint_fn idxV props w lib n).2 =
  [ECall props "volume" [] (VRes props "volume" []);
   EHost "[]" [w; idxV];
   EHost "-" [VRes props "volume" []; VOp "[]" [w; idxV]]].
Proof. reflexivity. Qed.

Lemma internalEnergyConstraint_fn_events idxU props w lib n :
  (internalEnergyConstraint_fn idxU props w lib n).2 =
  [ECall props "internalEnergy" [] (VRes props "internalEnergy" []);
   EHost "[]" [w; idxU];
   EHost "-" [VRes props "internalEnergy" []; VOp "[]" [w; idxU]]].
Proof. reflexivity. Qed.

Lemma pH_events idxH props lib n :
  (pH idxH props lib n).2 =
  [ECall props "speciesActivityLg" [idxH] (VRes props "speciesActivityLg" [idxH]);
   EHost "neg" [VRes props "speciesActivityLg" [idxH]]].
Proof. reflexivity. Qed.

(** The calcite notebook constructs one specification, one conditions object
    and one solver; its 280 solves all go through that solver, and the only
    methods it calls on the conditions are [charge], once at the start, and
    [temperature] and [pressure], before each pair of solves. *)
Fact calcite_notebook_reuses_one_solver lib :
  let t := trace lib solubility_calcite_in_water_rainwater in
  length (constructed CEquilibriumSpecs t) = 1%nat ∧
  length (constructed CEquilibriumConditions t) = 1%nat ∧
  constructed CEquilibriumSolver t = [7%nat] ∧
  solvers_used t = replicate 280 7%nat ∧
  remove_dups (methods_called CEquilibriumConditions t) = ["charge"; "temperature"; "pressure"].
Proof. destruct lib as [succ sz tr]. vm_compute. repeat split; reflexivity. Qed.

(** *** C2 *)


(** *** C3 *)



(** *** C5 *)

(** C5, as stated, fails: the custom-constraints notebook declares the
    inputs V and U only, and bounds temperature and pressure. *)
Lemma custom_constraints_bounds_undeclared :
  conditions_on_declared_inputs (trace lib0 equilibrium_with_custom_constraints) = false.
Proof. vm_compute. reflexivity. Qed.

(** C5, amended: every conditions object is constructed from exactly one
    specification, no specification serves two conditions objects, and a
    solve takes conditions only with a solver built from the same
    specification; a value is set only for an input that specification has
    declared before; a bound is set only on temperature or pressure, and
    only where the specification has not declared it as an input. *)
Theorem conditions_follow_their_specs :
  Forall (λ nb : string * py unit, ∀ lib,
            conditions_match_specs (trace lib nb.2) = true) notebooks.
Proof. each_notebook ltac:(intros [succ sz tr]; check_notebook). Qed.

(** *** C6 *)

(** C6, as stated, fails: the custom-constraints notebook computes
    [ChemicalProps(state)] before any solver exists and before any solve. *)
Lemma custom_constraints_props_before_solve :
  follows_stage_order (trace lib0 equilibrium_with_custom_constraints) = false.
Proof. vm_compute. reflexivity. Qed.

(** C6, amended: in every notebook each library object is created from
    objects of the kinds that its stage takes, created before it with that
    kind.  A database and a phase are created from names and lists of
    species.  A system is constructed from a database, followed by phases (a
    phase may be passed as [setName] returned it).  A state, a
    specification and a material are constructed from a system; conditions
    from a specification; a solver from a system or from a specification; a
    property object from a state or from a system, and it is updated with a
    state; a constraint equation from nothing.  An equilibrium calculation
    is [solver.solve(state)] or [solver.solve(state, conditions)] on a
    solver, or [equilibrate(state)] without a solver object, each returning
    a result; or [material.equilibrate(T, unit, P, unit)] on a material (a
    constructed one, a scaled one or the sum of two), which returns a new
    state.  Nothing else creates a library object. *)
Theorem stages_built_from_existing_objects :
  Forall (λ nb : string * py unit, ∀ lib,
            dependencies_respected (trace lib nb.2) = true) notebooks.
Proof. each_notebook ltac:(intros [succ sz tr]; check_notebook). Qed.

(** *** C7 *)

(** C7: no notebook modifies a chemical system: on a system, and on what
    was obtained from it, only accessors are called; a phase is configured
    only before it is given to a system, and every system is constructed
    from phase objects that belong to no other system. *)
Theorem chemical_systems_are_never_modified :
  Forall (λ nb : string * py unit, ∀ lib,
            systems_never_modified (trace lib nb.2) = true) notebooks.
Proof. each_notebook ltac:(intros [succ sz tr]; check_notebook). Qed.

(** * Further properties of the notebooks *)

(** The monitors of this part reject scripts that break what they check. *)

Example temperature_without_unit_rejected :
  quantities_have_units (trace lib0 temperature_without_unit) = false.
Proof. vm_compute. reflexivity. Qed.

Example input_declared_after_solver_rejected :
  specs_complete_before_use (trace lib0 input_declared_after_solver) = false.
Proof. vm_compute. reflexivity. Qed.

Example input_without_value_rejected :
  declared_inputs_have_values (trace lib0 input_without_value) = false.
Proof. vm_compute. reflexivity. Qed.

Example state_of_another_system_rejected :
  one_system_per_calculation (trace lib0 state_of_another_system) = false.
Proof. vm_compute. reflexivity. Qed.

Example props_read_after_change_rejected :
  props_read_in_step (trace lib0 props_read_after_change) = false.
Proof. vm_compute. reflexivity. Qed.

Example props_updated_with_other_state_rejected :
  props_updated_after_solve (trace lib0 props_updated_with_other_state) = false.
Proof. vm_compute. reflexivity. Qed.

Example solve_at_default_temperature_rejected :
  temperature_and_pressure_fixed (trace lib0 solve_at_default_temperature) = false.
Proof. vm_compute. reflexivity. Qed.

Example solve_of_empty_state_rejected :
  solved_states_have_content (trace lib0 solve_of_empty_state) = false.
Proof. vm_compute. reflexivity. Qed.

Example database_extended_rejected :
  databases_only_queried (trace lib0 database_extended) = false.
Proof. vm_compute. reflexivity. Qed.

Example constraint_without_residual_rejected :
  constraints_complete_when_added (trace lib0 constraint_without_residual) = false.
Proof. vm_compute. reflexivity. Qed.

Example constraint_never_added_rejected :
  constraints_complete_when_added (trace lib0 constraint_never_added) = false.
Proof. vm_compute. reflexivity. Qed.

Example carried_props_read_after_change_rejected :
  props_read_in_step (trace lib0 carried_props_read_after_change) = false.
Proof. vm_compute. reflexivity. Qed.

Example carried_props_updated_with_other_state_rejected :
  one_system_per_calculation (trace lib0 carried_props_updated_with_other_state) = false ∧
  props_updated_after_solve (trace lib0 carried_props_updated_with_other_state) = false.
Proof. vm_compute. split; reflexivity. Qed.

Example row_at_length_of_twin_table_detected :
  length (filter (λ e, is_foreign_row e = true) (trace lib0 row_at_length_of_twin_table)) = 1%nat.
Proof. vm_compute. reflexivity. Qed.

Example use_before_import_rejected :
  imported_before_use (trace lib0 use_before_import) = false.
Proof. vm_compute. reflexivity. Qed.

Example row_written_twice_rejected :
  rows_record_new_solves (trace lib0 row_written_twice) = false.
Proof. vm_compute. reflexivity. Qed.

(** X1: in every notebook, every temperature and every pressure given to a
    state or to conditions, as a value or as a bound, every amount set in or
    added to a state or a material, and the temperature and pressure a
    material is equilibrated at, is passed together with its unit:
    temperatures in celsius, pressures in bar, atm, MPa or GPa, amounts in
    kg, g, mg, mol, mmol or umol. *)
Theorem quantities_always_have_units :
  Forall (λ nb : string * py unit, ∀ lib,
            quantities_have_units (trace lib nb.2) = true) notebooks.
Proof. each_notebook ltac:(intros [succ sz tr]; check_notebook). Qed.

(** X2: in every notebook, once a conditions object or a solver has been
    constructed from a specification, nothing is called on that
    specification any more: all inputs, constraints and open species are
    declared before the specification is used. *)
Theorem specs_untouched_once_in_use :
  Forall (λ nb : string * py unit, ∀ lib,
            specs_complete_before_use (trace lib nb.2) = true) notebooks.
Proof. each_notebook ltac:(intros [succ sz tr]; check_notebook). Qed.

(** X3: in every notebook, whenever a solve is given conditions, these
    conditions have been given a value for every input that their
    specification has declared. *)
Theorem solves_find_values_for_declared_inputs :
  Forall (λ nb : string * py unit, ∀ lib,
            declared_inputs_have_values (trace lib nb.2) = true) notebooks.
Proof. each_notebook ltac:(intros [succ sz tr]; check_notebook). Qed.

(** X4: in every notebook, the solver, the state and the conditions of a
    solve were all constructed from the same chemical system, and a
    property object is updated only with a state of its system: the system
    it was constructed from, or, for the property object a state carries
    ([state.props()]), the system of that state. *)
Theorem solves_stay_within_one_system :
  Forall (λ nb : string * py unit, ∀ lib,
            one_system_per_calculation (trace lib nb.2) = true) notebooks.
Proof. each_notebook ltac:(intros [succ sz tr]; check_notebook). Qed.

(** X5: in every notebook, a property object, constructed by the notebook
    or carried by a state ([state.props()]), is read only while it is in
    step with a state: after it was constructed from a state or updated
    with one (for the one a state carries: after a solve of that state, or
    an update), and before that state is changed or solved again.  A
    property object constructed from a system is updated before it is
    read. *)
Theorem props_never_read_out_of_date :
  Forall (λ nb : string * py unit, ∀ lib,
            props_read_in_step (trace lib nb.2) = true) notebooks.
Proof. each_notebook ltac:(intros [succ sz tr]; check_notebook). Qed.

(** X6: in every notebook, the state a property object is updated with is
    the state of the latest solve, whether the property object was
    constructed by the notebook or is the one a state carries. *)
Theorem props_updated_with_state_solved_last :
  Forall (λ nb : string * py unit, ∀ lib,
            props_updated_after_solve (trace lib nb.2) = true) notebooks.
Proof. each_notebook ltac:(intros [succ sz tr]; check_notebook). Qed.

(** X7: in every notebook, no solve relies on the temperature or pressure a
    new state starts with: at every solve, each of the two has been fixed by
    the notebook in the state, or is fixed (by a value or by bounds) in the
    conditions of the solve, or was determined by an earlier solve of the
    state with conditions. *)
Theorem solves_never_use_default_temperature_or_pressure :
  Forall (λ nb : string * py unit, ∀ lib,
            temperature_and_pressure_fixed (trace lib nb.2) = true) notebooks.
Proof. each_notebook ltac:(intros [succ sz tr]; check_notebook). Qed.

(** X8: in every notebook, a state is solved only after an amount of some
    species has been set in it or added to it. *)
Theorem solved_states_are_never_empty :
  Forall (λ nb : string * py unit, ∀ lib,
            solved_states_have_content (trace lib nb.2) = true) notebooks.
Proof. each_notebook ltac:(intros [succ sz tr]; check_notebook). Qed.

(** X9: no notebook changes a thermodynamic database: a database, and what
    was obtained from it, is only queried, and a database is passed to
    nothing but the constructor of a chemical system, as its first
    argument. *)
Theorem databases_are_only_queried :
  Forall (λ nb : string * py unit, ∀ lib,
            databases_only_queried (trace lib nb.2) = true) notebooks.
Proof. each_notebook ltac:(intros [succ sz tr]; check_notebook). Qed.

(** X10: in every notebook, every constraint equation that is constructed
    is added to a specification, exactly once, after both its [id] and its
    residual function [fn] have been assigned, and nothing is assigned to
    it afterwards. *)
Theorem constraints_are_complete_when_added :
  Forall (λ nb : string * py unit, ∀ lib,
            constraints_complete_when_added (trace lib nb.2) = true) notebooks.
Proof.
  each_notebook ltac:(
    intros [succ sz tr]; apply constraints_complete_when_added_sound; case_flags; reflexivity).
Qed.

(** X11: every notebook, run from top to bottom, imports a package before
    it first uses it: reaktoro before any call into the library, numpy,
    pandas and bokeh before their calls, math before [log], [log10] and
    [exp]. *)
Theorem packages_imported_before_use :
  Forall (λ nb : string * py unit, ∀ lib,
            imported_before_use (trace lib nb.2) = true) notebooks.
Proof. each_notebook ltac:(intros [succ sz tr]; check_notebook). Qed.

(** X12: in every notebook, a row is written to a result table only after
    a solve that no earlier row has recorded: no calculation is recorded
    twice, and no row is written before the first solve. *)
Theorem rows_record_new_calculations :
  Forall (λ nb : string * py unit, ∀ lib,
            rows_record_new_solves (trace lib nb.2) = true) notebooks.
Proof. each_notebook ltac:(intros [succ sz tr]; check_notebook). Qed.

(** X13: every row of a result table is written at the index [len] of that
    same table, with one exception: in the notebook on contaminants, the
    first row of the ammonia table [pd2], which holds the amount 0.0 and
    the pH, is written at the length of the hydrochloric-acid table [pd1].
    Objects are numbered as they are created: [pd1] is object 7 and [pd2]
    object 60 of that notebook. *)
Theorem rows_written_at_own_length_but_one :
  Forall (λ nb : string * py unit, ∀ lib,
            length (filter (λ e, is_foreign_row e = true) (trace lib nb.2)) =
              (if bool_decide (nb.1 ∈ foreign_row_notebooks) then 1 else 0)%nat) notebooks ∧
  (∀ lib,
      omap row_written
           (filter (λ e, is_foreign_row e = true)
              (trace lib ph_dependence_on_contaminants_in_water)) =
      [(VObj CDataFrame 60, VObj CDataFrame 7,
        VList [VNum 0.0; VOp "float" [VRes (VObj CProps 6) "pH" []]])]).
Proof.
  split.
  - each_notebook ltac:(
      intros [succ sz tr]; unfold trace;
      rewrite length_filter_unroll by (case_flags; reflexivity);
      case_flags; reflexivity).
  - intros [succ sz tr]. unfold trace.
    rewrite filter_unroll by (case_flags; reflexivity).
    vm_compute. reflexivity.
Qed.

(** X14: what a notebook constructs, changes, solves, imports, tabulates
    and plots does not depend on the contents of the library's collections:
    the loops over a library collection and the branches on library data
    only read, compute with Python built-ins and print.  Two runs that
    differ in the sizes of the collections and in the outcome of these
    branches perform the same effects in the same order. *)
Theorem effects_independent_of_collections :
  Forall (λ nb : string * py unit, ∀ succ sz tr sz' tr',
            filter (λ e, is_effect e = true) (trace (Library succ sz tr) nb.2) =
            filter (λ e, is_effect e = true) (trace (Library succ sz' tr') nb.2)) notebooks.
Proof.
  each_notebook ltac:(
    intros succ sz tr sz' tr'; unfold trace;
    rewrite !filter_unroll by (case_flags; reflexivity);
    reflexivity).
Qed.

(** X15: whatever its arguments, [solubility_of_calcite] solves the state
    twice with the solver, first with the conditions and then without, and
    calls nothing else on the solver.  With the tag "water" it writes one
    row to [df_water], with the tag "rainwater" one row to [df_rainwater]:
    the temperature, the pressure, the pH and 10 minus the amount of
    calcite left.  With any other tag it still performs both solves, but
    reads no pH and writes no row. *)
Theorem solubility_of_calcite_records_by_tag
    conditions solver aprops df_water df_rainwater st T P tag lib n :
  let t := (solubility_of_calcite conditions solver aprops df_water df_rainwater
              (lit st) T P tag lib n).2 in
  let row := VList [T; P; VOp "float" [VRes aprops "pH" []];
                    VOp "-" [VNum 10.0;
                             VOp "float" [VRes st "speciesAmount" [VStr "Calcite"]]]] in
  solves t = [(solver, [st; conditions]); (solver, [st])] ∧
  omap row_written t =
    (if bool_decide (tag = "water") then [(df_water, df_water, row)]
     else if bool_decide (tag = "rainwater") then [(df_rainwater, df_rainwater, row)]
     else []) ∧
  receivers "pH" t =
    (if bool_decide (tag = "water" ∨ tag = "rainwater") then [aprops] else []).
Proof.
  intros t row. subst t row. unfold solubility_of_calcite.
  destruct (String.eqb_spec tag "water") as [->|Hw].
  - repeat split; reflexivity.
  - rewrite (bool_decide_eq_false_2 (tag = "water")) by done.
    destruct (String.eqb_spec tag "rainwater") as [->|Hr].
    + repeat split; reflexivity.
    + rewrite (bool_decide_eq_false_2 (tag = "rainwater")) by done.
      rewrite (bool_decide_eq_false_2 (tag = "water" ∨ tag = "rainwater")) by (intros [|]; done).
      repeat split; reflexivity.
Qed.
